(** * PoseTracker: the 3D skeleton driven by MediaPipe world landmarks

    A shallow embedding of the [PoseTracker] component (the three.js version,
    with [getScaleForLandmark], [getColorForLandmark], [createBones],
    [updateBone] and [onResults]) and the properties of its scene update.

    JavaScript numbers are IEEE 754 binary64 values.  The component is
    translated once, over an interface of the arithmetic it uses
    ([Number]), and that interface has two instances:
    - [binary64]: the arithmetic the program runs with ([spec_float] of the
      Standard Library at precision 53, with NaN, infinities and signed
      zeros), on which every definition evaluates;
    - [exact]: the real numbers, the arithmetic in which the geometry of the
      bone solver is stated (midpoint, Euclidean length, rotation). *)

From Stdlib Require Import ZArith QArith Qreals List Bool Lia Reals Lra.
From Stdlib Require Import Floats.SpecFloat.
From stdpp Require Import base list.

Set Implicit Arguments.

(** ** The arithmetic of JavaScript numbers *)

Class Number (F : Type) : Type := {
  lit : Q -> F;            (* a decimal literal, [0.02] *)
  EPSILON : F;             (* [Number.EPSILON] *)
  fneg : F -> F;           (* [-a] *)
  fadd : F -> F -> F;      (* [a + b] *)
  fsub : F -> F -> F;      (* [a - b] *)
  fmul : F -> F -> F;      (* [a * b] *)
  fdiv : F -> F -> F;      (* [a / b] *)
  fsqrt : F -> F;          (* [Math.sqrt(a)] *)
  fabs : F -> F;           (* [Math.abs(a)] *)
  fltb : F -> F -> bool;   (* [a < b] *)
  feqb : F -> F -> bool;   (* [a === b] *)
  truthy : F -> bool       (* ToBoolean(a), the test of [a || b] *)
}.

Declare Scope num_scope.
Delimit Scope num_scope with num.
Notation "- a" := (fneg a) : num_scope.
Infix "+" := fadd : num_scope.
Infix "-" := fsub : num_scope.
Infix "*" := fmul : num_scope.
Infix "/" := fdiv : num_scope.
Infix "<?" := fltb : num_scope.
Notation "a >? b" := (fltb b a) : num_scope.
Infix "===" := feqb (at level 70, no associativity) : num_scope.
Notation "a || b" := (if truthy a then a else b) : num_scope.

(** IEEE 754 binary64, round to nearest even. *)
Module Binary64.

Definition prec : Z := 53.
Definition emax : Z := 1024.

Definition of_Z (m : Z) : spec_float := binary_normalize prec emax m 0 false.

(** A decimal literal denotes the double nearest to it: numerator and
    denominator of the literals of this program are exact doubles and
    the quotient is rounded once. *)
Definition of_Q (q : Q) : spec_float :=
  SFdiv prec emax (of_Z (Qnum q)) (of_Z (Zpos (Qden q))).

(** 2^-52 *)
Definition epsilon : spec_float := S754_finite false 4503599627370496 (-104).

(** ToBoolean of a number: [0], [-0] and [NaN] are falsy. *)
Definition to_boolean (a : spec_float) : bool :=
  match a with
  | S754_zero _ | S754_nan => false
  | _ => true
  end.

Definition is_nan (a : spec_float) : bool :=
  match a with S754_nan => true | _ => false end.

Definition is_zero (a : spec_float) : bool :=
  match a with S754_zero _ => true | _ => false end.

(** [Number.isFinite] *)
Definition is_finite (a : spec_float) : bool :=
  match a with
  | S754_zero _ | S754_finite _ _ _ => true
  | _ => false
  end.

End Binary64.

#[export] Instance binary64 : Number spec_float := {
  lit := Binary64.of_Q;
  EPSILON := Binary64.epsilon;
  fneg := SFopp;
  fadd := SFadd Binary64.prec Binary64.emax;
  fsub := SFsub Binary64.prec Binary64.emax;
  fmul := SFmul Binary64.prec Binary64.emax;
  fdiv := SFdiv Binary64.prec Binary64.emax;
  fsqrt := SFsqrt Binary64.prec Binary64.emax;
  fabs := SFabs;
  fltb := SFltb;
  feqb := SFeqb;
  truthy := Binary64.to_boolean
}.

(** The real numbers: the same operations without rounding. *)
Module Exact.

Definition ltb (a b : R) : bool := if Rlt_dec a b then true else false.
Definition eqb (a b : R) : bool := if Req_dec_T a b then true else false.
Definition to_boolean (a : R) : bool := if Req_dec_T a 0 then false else true.

(** 2^-52 *)
Definition epsilon : R := (/ 2 ^ 52)%R.

End Exact.

#[export] Instance exact : Number R := {
  lit := Q2R;
  EPSILON := Exact.epsilon;
  fneg := Ropp;
  fadd := Rplus;
  fsub := Rminus;
  fmul := Rmult;
  fdiv := Rdiv;
  fsqrt := R_sqrt.sqrt;
  fabs := Rabs;
  fltb := Exact.ltb;
  feqb := Exact.eqb;
  truthy := Exact.to_boolean
}.

(** ** A trace of the divisions a computation executes

    JavaScript does not raise on a division by zero, it returns an infinity
    or NaN.  To state that a computation never divides by zero, the
    functions that divide return, next to their value, the divisors they
    used, in order. *)
Section Traced.
Context {F : Type}.

Definition Traced (A : Type) : Type := (A * list F)%type.

Definition ret {A} (a : A) : Traced A := (a, []).

Definition bind {A B} (m : Traced A) (k : A -> Traced B) : Traced B :=
  let '(a, t1) := m in
  let '(b, t2) := k a in
  (b, t1 ++ t2).

Definition value {A} (m : Traced A) : A := fst m.
Definition divisors {A} (m : Traced A) : list F := snd m.

Definition divide `{Number F} (a b : F) : Traced F := ((a / b)%num, [b]).
End Traced.

Notation "'let*' x ':=' m 'in' k" := (bind m (fun x => k))
  (at level 10, x name, m at level 100, k at level 200).

(** ** three.js: [Vector3] and [Quaternion]

    The methods the component calls, as three.js defines them
    (math/Vector3.js, math/Quaternion.js).  A method that mutates [this]
    returns the new value of [this]. *)
Module Vector3.
Section Ops.
Context {F : Type} `{Number F}.

Record t : Type := new { x : F; y : F; z : F }.

Definition copy (v : t) : t := new (x v) (y v) (z v).

Definition add (this v : t) : t :=
  new (x this + x v)%num (y this + y v)%num (z this + z v)%num.

Definition subVectors (a b : t) : t :=
  new (x a - x b)%num (y a - y b)%num (z a - z b)%num.

Definition multiplyScalar (this : t) (scalar : F) : t :=
  new (x this * scalar)%num (y this * scalar)%num (z this * scalar)%num.

Definition dot (this v : t) : F :=
  (x this * x v + y this * y v + z this * z v)%num.

Definition length (this : t) : F :=
  fsqrt (x this * x this + y this * y this + z this * z this)%num.

Definition divideScalar (this : t) (scalar : F) : Traced t :=
  let* inv := divide (lit 1) scalar in
  ret (multiplyScalar this inv).

Definition normalize (this : t) : Traced t :=
  divideScalar this (length this || lit 1)%num.
End Ops.
Arguments t F : clear implicits.
End Vector3.

Module Quaternion.
Section Ops.
Context {F : Type} `{Number F}.

Record t : Type := new { x : F; y : F; z : F; w : F }.

Definition identity : t := new (lit 0) (lit 0) (lit 0) (lit 1).

Definition length (this : t) : F :=
  fsqrt (x this * x this + y this * y this + z this * z this
         + w this * w this)%num.

Definition normalize (this : t) : Traced t :=
  let l := length this in
  if (l === lit 0)%num then
    ret (new (lit 0) (lit 0) (lit 0) (lit 1))
  else
    let* l := divide (lit 1) l in
    ret (new (x this * l)%num (y this * l)%num (z this * l)%num
             (w this * l)%num).

(** The rotation from the unit vector [vFrom] to the unit vector [vTo]. *)
Definition setFromUnitVectors (vFrom vTo : Vector3.t F) : Traced t :=
  let r := (Vector3.dot vFrom vTo + lit 1)%num in
  let this :=
    if (r <? EPSILON)%num then
      (* vFrom and vTo point in opposite directions *)
      let r := lit 0 in
      if (fabs (Vector3.x vFrom) >? fabs (Vector3.z vFrom))%num then
        new (- Vector3.y vFrom)%num (Vector3.x vFrom) (lit 0) r
      else
        new (lit 0) (- Vector3.z vFrom)%num (Vector3.y vFrom) r
    else
      new (Vector3.y vFrom * Vector3.z vTo - Vector3.z vFrom * Vector3.y vTo)%num
          (Vector3.z vFrom * Vector3.x vTo - Vector3.x vFrom * Vector3.z vTo)%num
          (Vector3.x vFrom * Vector3.y vTo - Vector3.y vFrom * Vector3.x vTo)%num
          r
  in
  normalize this.
End Ops.
Arguments t F : clear implicits.
End Quaternion.

(** ** The scene: joint spheres and bone cylinders *)
Section Scene.
Context {F : Type} `{Number F}.

Inductive Geometry : Type :=
| SphereGeometry (radius : F) (widthSegments heightSegments : Z)
| CylinderGeometry (radiusTop radiusBottom height : F) (radialSegments : Z).

Record MeshStandardMaterial : Type := {
  color : Z;
  metalness : F;
  roughness : F;
  emissive : Z;
  emissiveIntensity : F
}.

(** A [THREE.Mesh], with the properties the component reads or writes. *)
Record Mesh : Type := {
  geometry : Geometry;
  material : MeshStandardMaterial;
  position : Vector3.t F;
  scale : Vector3.t F;
  quaternion : Quaternion.t F;
  visible : bool
}.

(** [new THREE.Mesh(geometry, material)]: at the origin, unit scale, no
    rotation, visible. *)
Definition new_Mesh (g : Geometry) (m : MeshStandardMaterial) : Mesh :=
  {| geometry := g;
     material := m;
     position := Vector3.new (lit 0) (lit 0) (lit 0);
     scale := Vector3.new (lit 1) (lit 1) (lit 1);
     quaternion := Quaternion.identity;
     visible := true |}.

Definition set_visible (v : bool) (mesh : Mesh) : Mesh :=
  {| geometry := geometry mesh;
     material := material mesh;
     position := position mesh;
     scale := scale mesh;
     quaternion := quaternion mesh;
     visible := v |}.

Definition set_position (p : Vector3.t F) (mesh : Mesh) : Mesh :=
  {| geometry := geometry mesh;
     material := material mesh;
     position := p;
     scale := scale mesh;
     quaternion := quaternion mesh;
     visible := visible mesh |}.

Definition set_scale_y (l : F) (mesh : Mesh) : Mesh :=
  {| geometry := geometry mesh;
     material := material mesh;
     position := position mesh;
     scale := Vector3.new (Vector3.x (scale mesh)) l (Vector3.z (scale mesh));
     quaternion := quaternion mesh;
     visible := visible mesh |}.

Definition set_quaternion (q : Quaternion.t F) (mesh : Mesh) : Mesh :=
  {| geometry := geometry mesh;
     material := material mesh;
     position := position mesh;
     scale := scale mesh;
     quaternion := q;
     visible := visible mesh |}.

(** [jointMeshesRef.current] and [boneMeshesRef.current]. *)
Record Scene : Type := {
  jointMeshes : list Mesh;
  boneMeshes : list Mesh
}.

(** *** Joint classes *)

Definition getScaleForLandmark (index : Z) : F :=
  if ((index >=? 0) && (index <=? 10) || (index >=? 17) && (index <=? 22))%Z
  then lit 0.02
  else lit 0.05.

Definition getColorForLandmark (index : Z) : Z :=
  if ((index >=? 0) && (index <=? 10) || (index >=? 17) && (index <=? 22))%Z
  then 0xffff00%Z
  else 0x00ff00%Z.

Definition createJoint (i : Z) : Mesh :=
  let radius := getScaleForLandmark i in
  let color := getColorForLandmark i in
  let sphereGeometry := SphereGeometry radius 16 16 in
  let sphereMaterial :=
    {| color := color;
       metalness := lit 0.3;
       roughness := lit 0.4;
       emissive := color;
       emissiveIntensity := lit 0.1 |} in
  let sphere := new_Mesh sphereGeometry sphereMaterial in
  set_visible false sphere.

(** [for (let i = 0; i < 33; i++)], pushing one sphere per index. *)
Definition createJoints : list Mesh :=
  map (fun i : nat => createJoint (Z.of_nat i)) (seq 0 33).

(** [POSE_CONNECTIONS] is imported from [@mediapipe/pose]: the table of
    bones, each a pair of landmark indices. *)
Variable POSE_CONNECTIONS : list (nat * nat).

Definition createBones : list Mesh :=
  let cylinderMaterial :=
    {| color := 0x00ff00%Z;
       metalness := lit 0.2;
       roughness := lit 0.6;
       emissive := 0x00ff00%Z;
       emissiveIntensity := lit 0.05 |} in
  map (fun _ : nat * nat =>
         let geometry := CylinderGeometry (lit 0.02) (lit 0.02) (lit 1) 8 in
         let cylinder := new_Mesh geometry cylinderMaterial in
         set_visible false cylinder)
      POSE_CONNECTIONS.

(** The scene after the first effect has run. *)
Definition initialScene : Scene :=
  {| jointMeshes := createJoints; boneMeshes := createBones |}.

(** *** The bone solver *)

(** [direction] is one vector, mutated in place: it is halved by
    [multiplyScalar] before it is normalized, and [length] is read before
    either. *)
Definition updateBone (bone : Mesh) (point1 point2 : Vector3.t F) : Traced Mesh :=
  let direction := Vector3.subVectors point2 point1 in
  let length := Vector3.length direction in
  let direction := Vector3.multiplyScalar direction (lit 0.5) in
  let bone := set_position (Vector3.add (Vector3.copy point1) direction) bone in
  let bone := set_scale_y length bone in
  let* direction := Vector3.normalize direction in
  let* q := Quaternion.setFromUnitVectors
              (Vector3.new (lit 0) (lit 1) (lit 0)) direction in
  let bone := set_quaternion q bone in
  ret (set_visible true bone).

(** *** Detector results *)

Record Landmark : Type := { lx : F; ly : F; lz : F }.

(** [results.poseWorldLandmarks]: [None] when the property is missing (no
    pose detected), else an array of landmarks in which an entry may be
    absent (an index past the end, or a hole of the array). *)
Record Results : Type := {
  poseWorldLandmarks : option (list (option Landmark))
}.

(** [landmarks[i]], when it is an object. *)
Definition landmarkAt (landmarks : list (option Landmark)) (i : nat) : option Landmark :=
  mjoin (landmarks !! i).

(** MediaPipe: Y-down, three.js: Y-up; X is mirrored as well. *)
Definition toRenderSpace (landmark : Landmark) : Vector3.t F :=
  Vector3.new (- lx landmark)%num (- ly landmark)%num (- lz landmark)%num.

(** [array.forEach((element, index) => ...)] over the state [St] that the
    callback mutates. *)
Fixpoint forEachFrom {A St : Type} (f : A -> nat -> St -> St)
    (index : nat) (array : list A) (s : St) : St :=
  match array with
  | [] => s
  | element :: rest => forEachFrom f (S index) rest (f element index s)
  end.

Definition forEach {A St : Type} (f : A -> nat -> St -> St)
    (array : list A) (s : St) : St :=
  forEachFrom f 0 array s.

Definition updateJoint (slot : option Landmark) (index : nat)
    (meshes : list Mesh) : list Mesh :=
  match slot with
  | None => meshes                      (* a hole: the callback is not called *)
  | Some landmark =>
      match meshes !! index with
      | Some mesh =>
          let mesh := set_position (toRenderSpace landmark) mesh in
          <[index := set_visible true mesh]> meshes
      | None => meshes
      end
  end.

Definition updateConnection (landmarks : list (option Landmark))
    (connection : nat * nat) (index : nat) (meshes : list Mesh) : list Mesh :=
  let '(startIdx, endIdx) := connection in
  match landmarkAt landmarks startIdx, landmarkAt landmarks endIdx with
  | Some startLandmark, Some endLandmark =>
      let point1 := toRenderSpace startLandmark in
      let point2 := toRenderSpace endLandmark in
      match meshes !! index with
      | Some bone => <[index := value (updateBone bone point1 point2)]> meshes
      | None => meshes
      end
  | _, _ => meshes
  end.

Definition onResults (results : Results) (scene : Scene) : Scene :=
  match poseWorldLandmarks results with
  | None =>
      (* Hide all meshes if no pose detected *)
      {| jointMeshes := set_visible false <$> jointMeshes scene;
         boneMeshes := set_visible false <$> boneMeshes scene |}
  | Some landmarks =>
      {| jointMeshes := forEach updateJoint landmarks (jointMeshes scene);
         boneMeshes :=
           forEach (updateConnection landmarks) POSE_CONNECTIONS (boneMeshes scene) |}
  end.

End Scene.

Arguments Mesh F : clear implicits.
Arguments Scene F : clear implicits.
Arguments Landmark F : clear implicits.
Arguments Results F : clear implicits.

(** ** Runs of the component *)
Section Runs.
Context {F : Type} `{Number F}.
Variable POSE_CONNECTIONS : list (nat * nat).

(** The scenes the component can be in: the scene built at startup,
    updated by any sequence of detector results. *)
Inductive reachable : Scene F -> Prop :=
| reachable_init : reachable (initialScene POSE_CONNECTIONS)
| reachable_onResults results scene :
    reachable scene -> reachable (onResults POSE_CONNECTIONS results scene).

(** What [updateJoint] does to the mesh of its index. *)
Definition showJoint (slot : option (Landmark F)) (mesh : Mesh F) : Mesh F :=
  match slot with
  | None => mesh
  | Some landmark => set_visible true (set_position (toRenderSpace landmark) mesh)
  end.

(** What [updateConnection] does to the mesh of its index. *)
Definition showBone (landmarks : list (option (Landmark F)))
    (connection : nat * nat) (bone : Mesh F) : Mesh F :=
  match landmarkAt landmarks connection.1, landmarkAt landmarks connection.2 with
  | Some startLandmark, Some endLandmark =>
      value (updateBone bone (toRenderSpace startLandmark) (toRenderSpace endLandmark))
  | _, _ => bone
  end.

(** Both endpoint landmarks of a connection are present in the frame. *)
Definition endpointsPresent (landmarks : list (option (Landmark F)))
    (connection : nat * nat) : bool :=
  bool_decide (is_Some (landmarkAt landmarks connection.1))
  && bool_decide (is_Some (landmarkAt landmarks connection.2)).
End Runs.

(** ** Properties the specification asks of one update *)
Section Properties.
Context {F : Type} `{Number F}.
Variable POSE_CONNECTIONS : list (nat * nat).

(** After the update from a frame with [landmarks], a bone is visible
    exactly when both its endpoint landmarks are in the frame. *)
Definition boneShownIffEndpoints (landmarks : list (option (Landmark F)))
    (scene' : Scene F) : Prop :=
  forall i connection bone,
    POSE_CONNECTIONS !! i = Some connection ->
    boneMeshes scene' !! i = Some bone ->
    visible bone = endpointsPresent landmarks connection.

(** A render-space point read back as a detector-space point. *)
Definition asLandmark (p : Vector3.t F) : Landmark F :=
  {| lx := Vector3.x p; ly := Vector3.y p; lz := Vector3.z p |}.

(** The radius and colour classes of the joints: face (0-10) and hand
    tips (17-22) are fine, every other joint is standard. *)
Definition fine (index : Z) : Prop :=
  (0 <= index <= 10)%Z \/ (17 <= index <= 22)%Z.

#[global] Instance fine_dec index : Decision (fine index).
Proof. unfold fine. apply _. Defined.
End Properties.

(** The table exported by [@mediapipe/pose] as [POSE_CONNECTIONS]. *)
Definition MEDIAPIPE_POSE_CONNECTIONS : list (nat * nat) :=
  [(0, 1); (1, 2); (2, 3); (3, 7); (0, 4); (4, 5); (5, 6); (6, 8); (9, 10);
   (11, 12); (11, 13); (13, 15); (15, 17); (15, 19); (15, 21); (17, 19);
   (12, 14); (14, 16); (16, 18); (16, 20); (16, 22); (18, 20); (11, 23);
   (12, 24); (23, 24); (23, 25); (24, 26); (25, 27); (26, 28); (27, 29);
   (28, 30); (29, 31); (30, 32); (27, 31); (28, 32)]%nat.

(** ** Sample frames, in binary64 *)
Module Sample.

Definition landmark (x y z : Q) : Landmark spec_float :=
  {| lx := lit x; ly := lit y; lz := lit z |}.

(** All 33 landmarks: landmark [i] at [(i/10, i/20, 0)]. *)
Definition fullFrame : Results spec_float :=
  {| poseWorldLandmarks :=
       Some (map (fun i : nat =>
                    Some (landmark (inject_Z (Z.of_nat i) / 10)
                                   (inject_Z (Z.of_nat i) / 20) 0))
                 (seq 0 33)) |}.

(** Landmark 0 only: the array stops after it. *)
Definition partialFrame : Results spec_float :=
  {| poseWorldLandmarks := Some [Some (landmark 0 0 0)] |}.

Definition noDetection : Results spec_float :=
  {| poseWorldLandmarks := None |}.

Definition start : Scene spec_float := initialScene MEDIAPIPE_POSE_CONNECTIONS.

(** The scene after a full frame. *)
Definition tracked : Scene spec_float :=
  onResults MEDIAPIPE_POSE_CONNECTIONS fullFrame start.

(** The landmarks of [fullFrame]. *)
Definition fullLandmarks : list (option (Landmark spec_float)) :=
  map (fun i : nat =>
         Some (landmark (inject_Z (Z.of_nat i) / 10)
                        (inject_Z (Z.of_nat i) / 20) 0))
      (seq 0 33).

(** The scene after a full frame and then a result without landmarks. *)
Definition lost : Scene spec_float :=
  onResults MEDIAPIPE_POSE_CONNECTIONS noDetection tracked.

End Sample.

(** ** Properties the specification asks of the solver and of ingestion *)
Section SolverProperties.
Context {F : Type} `{Number F}.

(** Swapping the endpoints changes neither the placement nor the length
    of a bone. *)
Definition solverSymmetric (bone : Mesh F) (a b : Vector3.t F) : Prop :=
  position (value (updateBone bone a b)) = position (value (updateBone bone b a))
  /\ Vector3.y (scale (value (updateBone bone a b)))
     = Vector3.y (scale (value (updateBone bone b a))).
End SolverProperties.

Definition finiteVector (v : Vector3.t spec_float) : bool :=
  Binary64.is_finite (Vector3.x v) && Binary64.is_finite (Vector3.y v)
  && Binary64.is_finite (Vector3.z v).

Definition finiteLandmark (l : Landmark spec_float) : bool :=
  Binary64.is_finite (lx l) && Binary64.is_finite (ly l) && Binary64.is_finite (lz l).

(** No joint and no bone of the scene is placed at a non-finite position. *)
Definition placedFinite (scene : Scene spec_float) : Prop :=
  Forall (fun mesh => finiteVector (position mesh) = true)
         (jointMeshes scene ++ boneMeshes scene).

(** ** Sample endpoints *)
Module Endpoints.

(** (0.1, -0.2, 0), (0.1, 0, 0) and (0.7, 0, 0) in binary64. *)
Definition p : Vector3.t spec_float := Vector3.new (lit 0.1) (lit (-0.2)) (lit 0).
Definition a : Vector3.t spec_float := Vector3.new (lit 0.1) (lit 0) (lit 0).
Definition b : Vector3.t spec_float := Vector3.new (lit 0.7) (lit 0) (lit 0).

Definition c : Vector3.t R := Vector3.new 3%R 4%R 0%R.

End Endpoints.

Module Malformed.

(** Landmark 0 has a NaN abscissa, landmark 1 is at the origin. *)
Definition nanFrame : Results spec_float :=
  {| poseWorldLandmarks :=
       Some [Some {| lx := S754_nan; ly := lit 0; lz := lit 0 |};
             Some (Sample.landmark 0 0 0)] |}.

End Malformed.

(** ** Rotations, in exact arithmetic *)
Module Rotation.
Local Open Scope R_scope.





End Rotation.

(** ** Runs and frames *)
Section Frames.
Context {F : Type} `{Number F}.
Variable POSE_CONNECTIONS : list (nat * nat).

(** The mesh [createBones] makes for every connection. *)
Definition boneCylinder : Mesh F :=
  set_visible false
    (new_Mesh (CylinderGeometry (lit 0.02) (lit 0.02) (lit 1) 8)
              {| color := 0x00ff00%Z;
                 metalness := lit 0.2;
                 roughness := lit 0.6;
                 emissive := 0x00ff00%Z;
                 emissiveIntensity := lit 0.05 |}).

(** The detector results handled one after the other. *)
Definition run (results : list (Results F)) (scene : Scene F) : Scene F :=
  fold_left (fun scene r => onResults POSE_CONNECTIONS r scene) results scene.

(** A frame that has the 33 landmarks and both endpoints of every bone. *)
Definition complete (landmarks : list (option (Landmark F))) : bool :=
  forallb (fun i => bool_decide (is_Some (landmarkAt landmarks i))) (seq 0 33)
  && forallb (endpointsPresent landmarks) POSE_CONNECTIONS.

(** A detector-space point as a vector. *)
Definition asVector (l : Landmark F) : Vector3.t F :=
  Vector3.new (lx l) (ly l) (lz l).
End Frames.

(** The sign of a binary64 number is set (NaN has none). *)
Definition isNegative (a : spec_float) : bool :=
  match a with
  | S754_zero s | S754_infinity s | S754_finite s _ _ => s
  | S754_nan => false
  end.

(** ** [forEach] with a callback that updates the element of its index *)
Section ForEach.
Context {A M : Type}.

Lemma forEachFrom_ext (f f' : A -> nat -> list M -> list M) :
  (forall e i s, f e i s = f' e i s) ->
  forall array index s, forEachFrom f index array s = forEachFrom f' index array s.
Proof.
  intros Hext array. induction array as [|e rest IH]; intros index s; simpl.
  - reflexivity.
  - rewrite Hext. apply IH.
Qed.

Lemma forEach_ext (f f' : A -> nat -> list M -> list M) :
  (forall e i s, f e i s = f' e i s) ->
  forall array s, forEach f array s = forEach f' array s.
Proof. intros Hext array s. apply forEachFrom_ext, Hext. Qed.

Variable g : A -> M -> M.

Lemma forEachFrom_alter_length array : forall index (meshes : list M),
  length (forEachFrom (fun e i s => alter (g e) i s) index array meshes)
  = length meshes.
Proof.
  induction array as [|e rest IH]; intros index meshes; simpl.
  - reflexivity.
  - rewrite IH. apply length_alter.
Qed.

Lemma forEachFrom_alter_lookup array : forall index (meshes : list M) i,
  forEachFrom (fun e i s => alter (g e) i s) index array meshes !! i
  = if decide (index <= i)%nat
    then match array !! (i - index)%nat with
         | Some e => g e <$> meshes !! i
         | None => meshes !! i
         end
    else meshes !! i.
Proof.
  induction array as [|e rest IH]; intros index meshes i; simpl.
  - destruct (decide (index <= i)%nat); reflexivity.
  - rewrite IH.
    destruct (decide (S index <= i)%nat) as [Hlt|Hge].
    + rewrite decide_True by lia.
      replace (i - index)%nat with (S (i - S index)) by lia. simpl.
      rewrite list_lookup_alter_ne by lia. reflexivity.
    + destruct (decide (index <= i)%nat) as [Hle|Hgt].
      * assert (i = index) as -> by lia.
        rewrite Nat.sub_diag. simpl. apply list_lookup_alter_eq.
      * rewrite list_lookup_alter_ne by lia. reflexivity.
Qed.

Lemma forEach_alter_length array (meshes : list M) :
  length (forEach (fun e i s => alter (g e) i s) array meshes) = length meshes.
Proof. apply forEachFrom_alter_length. Qed.

Lemma forEach_alter_lookup array (meshes : list M) i :
  forEach (fun e i s => alter (g e) i s) array meshes !! i
  = match array !! i with
    | Some e => g e <$> meshes !! i
    | None => meshes !! i
    end.
Proof.
  unfold forEach. rewrite forEachFrom_alter_lookup.
  rewrite decide_True by lia. rewrite Nat.sub_0_r. reflexivity.
Qed.
End ForEach.

(** ** One call of [onResults], mesh by mesh *)
Section Update.
Context {F : Type} `{Number F}.
Variable POSE_CONNECTIONS : list (nat * nat).

Lemma updateJoint_alter (slot : option (Landmark F)) index meshes :
  updateJoint slot index meshes = alter (showJoint slot) index meshes.
Proof.
  unfold updateJoint, showJoint. destruct slot as [landmark|].
  - destruct (meshes !! index) as [mesh|] eqn:Hmesh.
    + rewrite list_insert_alter. apply list_eq. intros j.
      rewrite !list_lookup_alter. destruct (decide (index = j)) as [->|]; [|done].
      rewrite Hmesh. reflexivity.
    + apply list_eq. intros j. rewrite list_lookup_alter.
      destruct (decide (index = j)) as [->|]; [|done]. rewrite Hmesh. reflexivity.
  - symmetry. apply list_alter_id. reflexivity.
Qed.

Lemma updateConnection_alter (landmarks : list (option (Landmark F)))
    connection index meshes :
  updateConnection landmarks connection index meshes
  = alter (showBone landmarks connection) index meshes.
Proof.
  unfold updateConnection, showBone. destruct connection as [startIdx endIdx]. simpl.
  destruct (landmarkAt landmarks startIdx) as [startLandmark|];
    [destruct (landmarkAt landmarks endIdx) as [endLandmark|]|].
  - destruct (meshes !! index) as [bone|] eqn:Hmesh.
    + rewrite list_insert_alter. apply list_eq. intros j.
      rewrite !list_lookup_alter. destruct (decide (index = j)) as [->|]; [|done].
      rewrite Hmesh. reflexivity.
    + apply list_eq. intros j. rewrite list_lookup_alter.
      destruct (decide (index = j)) as [->|]; [|done]. rewrite Hmesh. reflexivity.
  - symmetry. apply list_alter_id. reflexivity.
  - symmetry. apply list_alter_id. reflexivity.
Qed.

(** After a frame with landmarks, joint [i] is [showJoint] of landmark [i]. *)
Lemma onResults_joint (results : Results F) landmarks (scene : Scene F) i :
  poseWorldLandmarks results = Some landmarks ->
  jointMeshes (onResults POSE_CONNECTIONS results scene) !! i
  = showJoint (landmarkAt landmarks i) <$> jointMeshes scene !! i.
Proof.
  intros Hdet. unfold onResults. rewrite Hdet. simpl.
  rewrite (forEach_ext _ _ updateJoint_alter).
  rewrite (forEach_alter_lookup showJoint). unfold landmarkAt.
  destruct (landmarks !! i) as [slot|]; simpl; [reflexivity|].
  destruct (jointMeshes scene !! i); reflexivity.
Qed.

(** After a frame with landmarks, bone [i] is [showBone] of connection [i]. *)
Lemma onResults_bone (results : Results F) landmarks (scene : Scene F) i :
  poseWorldLandmarks results = Some landmarks ->
  boneMeshes (onResults POSE_CONNECTIONS results scene) !! i
  = match POSE_CONNECTIONS !! i with
    | Some connection => showBone landmarks connection <$> boneMeshes scene !! i
    | None => boneMeshes scene !! i
    end.
Proof.
  intros Hdet. unfold onResults. rewrite Hdet. simpl.
  rewrite (forEach_ext _ _ (updateConnection_alter landmarks)).
  apply (forEach_alter_lookup (showBone landmarks)).
Qed.

(** After a frame without landmarks, every mesh is hidden and otherwise
    untouched. *)
Lemma onResults_no_detection (results : Results F) (scene : Scene F) :
  poseWorldLandmarks results = None ->
  onResults POSE_CONNECTIONS results scene
  = {| jointMeshes := set_visible false <$> jointMeshes scene;
       boneMeshes := set_visible false <$> boneMeshes scene |}.
Proof. intros Hnone. unfold onResults. rewrite Hnone. reflexivity. Qed.

Lemma onResults_length (results : Results F) (scene : Scene F) :
  length (jointMeshes (onResults POSE_CONNECTIONS results scene))
  = length (jointMeshes scene)
  /\ length (boneMeshes (onResults POSE_CONNECTIONS results scene))
     = length (boneMeshes scene).
Proof.
  unfold onResults. destruct (poseWorldLandmarks results) as [landmarks|]; simpl.
  - rewrite (forEach_ext _ _ updateJoint_alter).
    rewrite (forEach_ext _ _ (updateConnection_alter landmarks)).
    rewrite !forEach_alter_length. done.
  - rewrite !length_fmap. done.
Qed.


(** [updateBone], with the trace of divisors dropped. *)
Lemma updateBone_value (bone : Mesh F) point1 point2 :
  value (updateBone bone point1 point2)
  = let direction := Vector3.subVectors point2 point1 in
    let halved := Vector3.multiplyScalar direction (lit 0.5) in
    {| geometry := geometry bone;
       material := material bone;
       position := Vector3.add point1 halved;
       scale := Vector3.new (Vector3.x (scale bone)) (Vector3.length direction)
                            (Vector3.z (scale bone));
       quaternion :=
         value (Quaternion.setFromUnitVectors
                  (Vector3.new (lit 0) (lit 1) (lit 0))
                  (value (Vector3.normalize halved)));
       visible := true |}.
Proof.
  unfold updateBone, Vector3.normalize, Vector3.divideScalar, divide, bind, ret, value.
  simpl.
  destruct (Quaternion.setFromUnitVectors _ _) as [q t]. simpl.
  destruct point1. reflexivity.
Qed.

(** The divisions of [updateBone]: one in [Vector3.normalize], then those
    of [Quaternion.normalize]. *)
Lemma updateBone_divisors (bone : Mesh F) point1 point2 :
  divisors (updateBone bone point1 point2)
  = let halved :=
      Vector3.multiplyScalar (Vector3.subVectors point2 point1) (lit 0.5) in
    (Vector3.length halved || lit 1)%num
    :: divisors (Quaternion.setFromUnitVectors
                   (Vector3.new (lit 0) (lit 1) (lit 0))
                   (value (Vector3.normalize halved))).
Proof.
  unfold updateBone, Vector3.normalize, Vector3.divideScalar, divide, bind, ret,
    value, divisors.
  simpl.
  destruct (Quaternion.setFromUnitVectors _ _) as [q t]. simpl.
  rewrite app_nil_r. reflexivity.
Qed.

Lemma quaternion_normalize_divisors (q : Quaternion.t F) :
  divisors (Quaternion.normalize q)
  = if (Quaternion.length q === lit 0)%num then [] else [Quaternion.length q].
Proof.
  unfold Quaternion.normalize.
  destruct (Quaternion.length q === lit 0)%num; reflexivity.
Qed.

Lemma setFromUnitVectors_divisors (vFrom vTo : Vector3.t F) :
  exists q, divisors (Quaternion.setFromUnitVectors vFrom vTo)
            = divisors (Quaternion.normalize q).
Proof. unfold Quaternion.setFromUnitVectors. eexists. reflexivity. Qed.

(** The solver writes only position, [scale.y], quaternion and visibility. *)
Lemma showBone_geometry landmarks connection (bone : Mesh F) :
  geometry (showBone landmarks connection bone) = geometry bone
  /\ material (showBone landmarks connection bone) = material bone.
Proof.
  unfold showBone.
  destruct (landmarkAt landmarks connection.1); [|done].
  destruct (landmarkAt landmarks connection.2); [|done].
  rewrite updateBone_value. done.
Qed.

Lemma showJoint_geometry slot (mesh : Mesh F) :
  geometry (showJoint slot mesh) = geometry mesh
  /\ material (showJoint slot mesh) = material mesh.
Proof. destruct slot; done. Qed.
End Update.

(** ** What every reachable scene keeps *)
Section Invariant.
Context {F : Type} `{Number F}.
Variable POSE_CONNECTIONS : list (nat * nat).

Lemma createJoints_length : length (createJoints (F := F)) = 33%nat.
Proof. reflexivity. Qed.

Lemma createJoints_lookup i :
  (i < 33)%nat -> createJoints !! i = Some (createJoint (F := F) (Z.of_nat i)).
Proof.
  intros Hi. unfold createJoints.
  change (map ?f ?l) with (f <$> l).
  rewrite list_lookup_fmap, lookup_seq_lt by lia. reflexivity.
Qed.

(** An update writes neither the geometry nor the material of a joint. *)
Lemma onResults_joint_class results (scene : Scene F) i mesh :
  jointMeshes (onResults POSE_CONNECTIONS results scene) !! i = Some mesh ->
  exists old, jointMeshes scene !! i = Some old
              /\ geometry mesh = geometry old /\ material mesh = material old.
Proof.
  destruct (poseWorldLandmarks results) as [landmarks|] eqn:Hdet.
  - rewrite (onResults_joint _ _ _ _ Hdet).
    destruct (jointMeshes scene !! i) as [old|]; [|discriminate].
    simpl. intros [= <-]. exists old. split; [reflexivity|].
    apply showJoint_geometry.
  - rewrite (onResults_no_detection _ _ _ Hdet). simpl.
    rewrite list_lookup_fmap.
    destruct (jointMeshes scene !! i) as [old|]; [|discriminate].
    simpl. intros [= <-]. exists old. done.
Qed.

(** The joints keep their count, geometry and material; the bones keep
    their count. *)
Lemma reachable_invariant (scene : Scene F) :
  reachable POSE_CONNECTIONS scene ->
  length (jointMeshes scene) = 33%nat
  /\ length (boneMeshes scene) = length POSE_CONNECTIONS
  /\ (forall i mesh, jointMeshes scene !! i = Some mesh ->
        geometry mesh = geometry (createJoint (Z.of_nat i))
        /\ material mesh = material (createJoint (Z.of_nat i))).
Proof.
  induction 1 as [|results scene Hreach (Hjoints & Hbones & Hclass)].
  - split; [apply createJoints_length|]. split.
    + simpl. unfold createBones. apply length_map.
    + intros i mesh Hmesh. simpl in Hmesh.
      assert (Hi : (i < 33)%nat).
      { apply lookup_lt_Some in Hmesh. rewrite createJoints_length in Hmesh.
        exact Hmesh. }
      rewrite createJoints_lookup in Hmesh by exact Hi.
      injection Hmesh as <-. done.
  - destruct (onResults_length POSE_CONNECTIONS results scene) as [Hlj Hlb].
    rewrite Hlj, Hlb. split; [assumption|]. split; [assumption|].
    intros i mesh Hmesh.
    destruct (onResults_joint_class _ _ _ Hmesh) as (old & Hold & -> & ->).
    apply (Hclass i old Hold).
Qed.
End Invariant.

(** ** binary64 arithmetic *)
Section Binary64Facts.
Import Binary64.

Local Abbreviation sub := (SFsub prec emax).
Local Abbreviation mul := (SFmul prec emax).
Local Abbreviation add := (SFadd prec emax).

Lemma SFopp_involutive (a : spec_float) : SFopp (SFopp a) = a.
Proof. destruct a as [s|s| |s m e]; simpl; rewrite ?negb_involutive; reflexivity. Qed.

Lemma SFopp_is_finite (a : spec_float) : is_finite (SFopp a) = is_finite a.
Proof. destruct a; reflexivity. Qed.

Lemma SFopp_is_nan (a : spec_float) : is_nan (SFopp a) = is_nan a.
Proof. destruct a; reflexivity. Qed.

(** Rounding does not look at the sign. *)
Lemma binary_round_aux_opp s m e l :
  SFopp (binary_round_aux prec emax s m e l)
  = binary_round_aux prec emax (negb s) m e l.
Proof.
  unfold binary_round_aux.
  destruct (shr_fexp prec emax m e l) as [mrs e'].
  destruct (shr_fexp prec emax _ e' loc_Exact) as [mrs2 e2].
  destruct (shr_m mrs2) as [|q|q]; simpl; try reflexivity.
  destruct (e2 <=? emax - prec)%Z; reflexivity.
Qed.

Lemma binary_normalize_opp m e :
  binary_normalize prec emax (- m) e false
  = match m with
    | Z0 => S754_zero false
    | _ => SFopp (binary_normalize prec emax m e false)
    end.
Proof.
  destruct m as [|p|p]; simpl; try reflexivity;
    unfold binary_round;
    destruct (shl_align p e _) as [mz ez]; rewrite binary_round_aux_opp; reflexivity.
Qed.

Lemma SFmul_opp_opp (a : spec_float) : mul (SFopp a) (SFopp a) = mul a a.
Proof. destruct a as [s|s| |s m e]; simpl; try reflexivity; destruct s; reflexivity. Qed.

(** [a - b] and [b - a] have the same square. *)
Lemma SFsub_square_sym (a b : spec_float) :
  mul (sub a b) (sub a b) = mul (sub b a) (sub b a).
Proof.
  destruct a as [sa|sa| |sa ma ea], b as [sb|sb| |sb mb eb];
    try reflexivity;
    try (destruct sa, sb; reflexivity);
    try (destruct sa; reflexivity);
    try (destruct sb; reflexivity).
  unfold SFsub. rewrite (Z.min_comm eb ea).
  set (ez := Z.min ea eb).
  set (A := cond_Zopp sa (Z.pos (shl_align ma ea ez).1)).
  set (B := cond_Zopp sb (Z.pos (shl_align mb eb ez).1)).
  replace (B - A)%Z with (- (A - B))%Z by lia.
  rewrite binary_normalize_opp.
  destruct (A - B)%Z; [reflexivity| |]; apply eq_sym, SFmul_opp_opp.
Qed.

Lemma or_one_nonzero (l : spec_float) : is_zero (l || lit 1)%num = false.
Proof. destruct l; reflexivity. Qed.

Lemma not_eq_zero_nonzero (l : spec_float) :
  (l === lit 0)%num = false -> is_zero l = false.
Proof. destruct l; try reflexivity. intros Heq. discriminate Heq. Qed.

Lemma SFsub_diag (a : spec_float) :
  is_finite a = true -> sub a a = S754_zero false.
Proof.
  destruct a as [s|s| |s m e]; try discriminate; intros _.
  - destruct s; reflexivity.
  - unfold SFsub. rewrite Z.sub_diag. reflexivity.
Qed.

Lemma SFeqb_refl (a : spec_float) : is_nan a = false -> SFeqb a a = true.
Proof.
  destruct a as [s|s| |s m e]; try discriminate; intros _; unfold SFeqb; simpl.
  - reflexivity.
  - destruct s; reflexivity.
  - destruct s; rewrite Z.compare_refl, Pos.compare_cont_refl; reflexivity.
Qed.

(** Adding [+0] gives the same number ([-0 + 0] is [+0]). *)
Lemma SFadd_zero_r (a : spec_float) :
  is_finite a = true -> SFeqb (add a (S754_zero false)) a = true.
Proof.
  destruct a as [s|s| |s m e]; try discriminate; intros _.
  - destruct s; reflexivity.
  - simpl. apply SFeqb_refl. reflexivity.
Qed.

(** A non-finite endpoint coordinate makes the midpoint non-finite. *)
Lemma midpoint_non_finite (a b : spec_float) :
  is_finite a && is_finite b = false ->
  is_finite (add a (mul (sub b a) (lit 0.5))) = false.
Proof.
  change (lit 0.5) with (S754_finite false 4503599627370496 (-53)).
  destruct a as [sa|sa| |sa ma ea], b as [sb|sb| |sb mb eb];
    try discriminate; intros _;
    try reflexivity;
    try (destruct sa, sb; reflexivity).
Qed.

Lemma midpoint_nan (a b : spec_float) :
  is_nan a || is_nan b = true ->
  is_nan (add a (mul (sub b a) (lit 0.5))) = true.
Proof.
  change (lit 0.5) with (S754_finite false 4503599627370496 (-53)).
  destruct a as [sa|sa| |sa ma ea], b as [sb|sb| |sb mb eb];
    try discriminate; intros _; reflexivity.
Qed.
End Binary64Facts.

(** ** Exact arithmetic *)

(** Read the operations of [exact] as the operations of [R]. *)
Ltac to_reals := cbn [fmul fadd fsub fdiv fneg fsqrt fabs exact] in *.

Section ExactFacts.
Local Open Scope R_scope.



Lemma lit_exact_half : lit (F := R) 0.5 = / 2.
Proof. simpl. unfold Q2R. simpl. lra. Qed.



Lemma to_boolean_exact (a : R) : truthy a = true <-> a <> 0.
Proof.
  simpl. unfold Exact.to_boolean. destruct (Req_dec_T a 0); split; congruence.
Qed.








End ExactFacts.

(** ** The joint classes, index by index *)
Section Classes.
Context {F : Type} `{Number F}.

Lemma landmark_class (index : Z) :
  if decide (fine index)
  then getScaleForLandmark (F := F) index = lit 0.02
       /\ getColorForLandmark index = 0xffff00%Z
  else getScaleForLandmark (F := F) index = lit 0.05
       /\ getColorForLandmark index = 0x00ff00%Z.
Proof.
  unfold getScaleForLandmark, getColorForLandmark.
  destruct (decide (fine index)) as [Hfine|Hstd]; unfold fine in *.
  - replace ((index >=? 0) && (index <=? 10) || (index >=? 17) && (index <=? 22))%Z
      with true; [done|].
    symmetry. apply orb_true_iff. rewrite !andb_true_iff. lia.
  - replace ((index >=? 0) && (index <=? 10) || (index >=? 17) && (index <=? 22))%Z
      with false; [done|].
    symmetry. apply orb_false_iff. rewrite !andb_false_iff. lia.
Qed.
End Classes.

Section ExactDirection.
Local Open Scope R_scope.



End ExactDirection.

(** ** Visibility of bones *)
Section BoneVisibility.
Context {F : Type} `{Number F}.
Variable POSE_CONNECTIONS : list (nat * nat).

(** C1, as amended: after a frame with landmarks, a bone whose two endpoint
    landmarks are present is visible, and a bone with an absent endpoint
    is left as it was; so the bone is visible exactly when both endpoints
    are present or it was visible before the update. *)
Theorem onResults_bone_visibility (results : Results F) landmarks
    (scene : Scene F) i connection bone :
  poseWorldLandmarks results = Some landmarks ->
  POSE_CONNECTIONS !! i = Some connection ->
  boneMeshes scene !! i = Some bone ->
  exists bone',
    boneMeshes (onResults POSE_CONNECTIONS results scene) !! i = Some bone'
    /\ visible bone' = endpointsPresent landmarks connection || visible bone
    /\ (endpointsPresent landmarks connection = true -> visible bone' = true)
    /\ (endpointsPresent landmarks connection = false -> bone' = bone).
Proof.
  intros Hdet Hconn Hbone.
  exists (showBone landmarks connection bone).
  rewrite (onResults_bone _ _ _ _ Hdet), Hconn, Hbone. split; [reflexivity|].
  unfold showBone, endpointsPresent.
  destruct (landmarkAt landmarks connection.1) as [a|];
    [destruct (landmarkAt landmarks connection.2) as [b|]|].
  - rewrite updateBone_value. simpl.
    repeat split; intros; first [reflexivity | discriminate].
  - simpl. repeat split; intros; first [reflexivity | discriminate].
  - simpl. repeat split; intros; first [reflexivity | discriminate].
Qed.
End BoneVisibility.

(** C1 at a bone of the start scene, for the frame that has landmark 0
    only: the bone between landmarks 0 and 1 stays hidden. *)
Lemma onResults_bone_visibility_witness :
  exists bone',
    boneMeshes (onResults MEDIAPIPE_POSE_CONNECTIONS Sample.partialFrame
                          Sample.start) !! 0%nat = Some bone'
    /\ visible bone'
       = endpointsPresent [Some (Sample.landmark 0 0 0)] (0, 1)%nat || false.
Proof.
  destruct (@onResults_bone_visibility spec_float binary64 MEDIAPIPE_POSE_CONNECTIONS
              Sample.partialFrame [Some (Sample.landmark 0 0 0)] Sample.start
              0%nat (0, 1)%nat _ eq_refl eq_refl eq_refl)
    as (bone' & Hlookup & Hvisible & _).
  exists bone'. split; assumption.
Defined.

(** C1, as stated, fails: the bone between landmarks 0 and 1, shown by a
    full frame, is still shown after a frame in which landmark 1 is absent. *)
Lemma stale_bone_stays_visible :
  ~ boneShownIffEndpoints MEDIAPIPE_POSE_CONNECTIONS
      [Some (Sample.landmark 0 0 0)]
      (onResults MEDIAPIPE_POSE_CONNECTIONS Sample.partialFrame Sample.tracked).
Proof.
  intros Hclaim.
  assert (Hshown : exists bone,
             boneMeshes (onResults MEDIAPIPE_POSE_CONNECTIONS Sample.partialFrame
                                   Sample.tracked) !! 0%nat = Some bone
             /\ visible bone = true).
  { vm_compute. eexists. split; reflexivity. }
  destruct Hshown as (bone & Hbone & Hvisible).
  specialize (Hclaim 0%nat (0, 1)%nat bone eq_refl Hbone).
  rewrite Hvisible in Hclaim.
  assert (Habsent : endpointsPresent [Some (Sample.landmark 0 0 0)] (0, 1)%nat = false)
    by (vm_compute; reflexivity).
  rewrite Habsent in Hclaim. discriminate Hclaim.
Qed.

(** ** The coordinate transform *)

(** C2: the transform negates every coordinate of a detector-space point,
    and applying it twice gives the point back, for finite and non-finite
    coordinates alike. *)
Theorem toRenderSpace_involutive (p : Landmark spec_float) :
  toRenderSpace p = Vector3.new (SFopp (lx p)) (SFopp (ly p)) (SFopp (lz p))
  /\ asLandmark (toRenderSpace (asLandmark (toRenderSpace p))) = p.
Proof.
  split; [reflexivity|].
  destruct p as [a b c]. unfold toRenderSpace, asLandmark. simpl.
  rewrite !SFopp_involutive. reflexivity.
Qed.

(** ** No detection *)
Section NoDetection.
Context {F : Type} `{Number F}.
Variable POSE_CONNECTIONS : list (nat * nat).

(** C5: after a result without landmarks every joint mesh and every bone
    mesh is hidden; there are 33 joints and one bone per connection. *)
Theorem no_detection_hides_all (results : Results F) (scene : Scene F) :
  reachable POSE_CONNECTIONS scene ->
  poseWorldLandmarks results = None ->
  let scene' := onResults POSE_CONNECTIONS results scene in
  length (jointMeshes scene') = 33%nat
  /\ length (boneMeshes scene') = length POSE_CONNECTIONS
  /\ Forall (fun mesh => visible mesh = false) (jointMeshes scene')
  /\ Forall (fun mesh => visible mesh = false) (boneMeshes scene').
Proof.
  intros Hreach Hnone scene'.
  destruct (reachable_invariant Hreach) as (Hjoints & Hbones & _).
  destruct (onResults_length POSE_CONNECTIONS results scene) as [Hlj Hlb].
  fold scene' in Hlj, Hlb.
  split; [congruence|]. split; [congruence|].
  subst scene'. rewrite (onResults_no_detection _ _ _ Hnone). simpl.
  split; apply Forall_fmap, Forall_true; reflexivity.
Qed.

(** C10: a result without landmarks changes the visibility flags only:
    every mesh keeps its position, scale and orientation (and its
    geometry and material), and no mesh is added or removed. *)
Theorem no_detection_frame (results : Results F) (scene : Scene F) :
  poseWorldLandmarks results = None ->
  let scene' := onResults POSE_CONNECTIONS results scene in
  let kept (mesh mesh' : Mesh F) :=
    position mesh' = position mesh /\ scale mesh' = scale mesh
    /\ quaternion mesh' = quaternion mesh
    /\ geometry mesh' = geometry mesh /\ material mesh' = material mesh in
  Forall2 kept (jointMeshes scene) (jointMeshes scene')
  /\ Forall2 kept (boneMeshes scene) (boneMeshes scene').
Proof.
  intros Hnone scene' kept. subst scene'.
  rewrite (onResults_no_detection _ _ _ Hnone). simpl.
  split; apply Forall2_fmap_r, Forall_Forall2_diag, Forall_true;
    intros mesh; repeat split.
Qed.
End NoDetection.

(** C5 at the tracked sample scene. *)
Lemma no_detection_hides_all_witness :
  length (jointMeshes Sample.lost) = 33%nat
  /\ length (boneMeshes Sample.lost) = 35%nat
  /\ Forall (fun mesh => visible mesh = false) (jointMeshes Sample.lost)
  /\ Forall (fun mesh => visible mesh = false) (boneMeshes Sample.lost).
Proof.
  apply (@no_detection_hides_all spec_float binary64 MEDIAPIPE_POSE_CONNECTIONS
           Sample.noDetection Sample.tracked).
  - apply reachable_onResults, reachable_init.
  - reflexivity.
Defined.

(** C10 at the tracked sample scene: the joints keep the positions of the
    full frame. *)
Lemma no_detection_frame_witness :
  Forall2 (fun mesh mesh' : Mesh spec_float =>
             position mesh' = position mesh /\ scale mesh' = scale mesh
             /\ quaternion mesh' = quaternion mesh
             /\ geometry mesh' = geometry mesh /\ material mesh' = material mesh)
          (jointMeshes Sample.tracked)
          (jointMeshes (onResults MEDIAPIPE_POSE_CONNECTIONS Sample.noDetection
                                  Sample.tracked)).
Proof.
  apply (@no_detection_frame spec_float binary64 MEDIAPIPE_POSE_CONNECTIONS
           Sample.noDetection Sample.tracked eq_refl).
Defined.

(** ** Joint classes *)
Section JointClasses.
Variable POSE_CONNECTIONS : list (nat * nat).

(** C8: in every reachable scene, joint [i] of the 33 joints has the
    radius and colour of its class, decided by its index alone: fine
    (radius 0.02, yellow) for 0-10 and 17-22, standard (radius 0.05,
    green) otherwise; the two radii and the two colours differ. *)
Theorem joint_classes (scene : Scene spec_float) (i : nat) :
  reachable POSE_CONNECTIONS scene ->
  (i < 33)%nat ->
  exists mesh,
    jointMeshes scene !! i = Some mesh
    /\ (if decide (fine (Z.of_nat i))
        then geometry mesh = SphereGeometry (lit 0.02) 16 16
             /\ color (material mesh) = 0xffff00%Z
        else geometry mesh = SphereGeometry (lit 0.05) 16 16
             /\ color (material mesh) = 0x00ff00%Z)
    /\ lit (F := spec_float) 0.02 <> lit 0.05
    /\ 0xffff00%Z <> 0x00ff00%Z.
Proof.
  intros Hreach Hi.
  destruct (reachable_invariant Hreach) as (Hjoints & _ & Hclass).
  destruct (lookup_lt_is_Some_2 (jointMeshes scene) i) as [mesh Hmesh]; [lia|].
  exists mesh. split; [exact Hmesh|].
  destruct (Hclass i mesh Hmesh) as [Hgeometry Hmaterial].
  rewrite Hgeometry, Hmaterial. simpl.
  pose proof (landmark_class (F := spec_float) (Z.of_nat i)) as Hlandmark.
  split; [|split; [vm_compute; discriminate | discriminate]].
  destruct (decide (fine (Z.of_nat i))); destruct Hlandmark as [-> ->]; done.
Qed.
End JointClasses.

(** C8 at joint 19 (a hand tip) after a full frame. *)
Lemma joint_classes_witness :
  exists mesh,
    jointMeshes Sample.tracked !! 19%nat = Some mesh
    /\ geometry mesh = SphereGeometry (lit 0.02) 16 16
    /\ color (material mesh) = 0xffff00%Z.
Proof.
  destruct (@joint_classes MEDIAPIPE_POSE_CONNECTIONS Sample.tracked 19%nat)
    as (mesh & Hmesh & Hclass & _).
  - apply reachable_onResults, reachable_init.
  - lia.
  - exists mesh. split; [exact Hmesh|]. exact Hclass.
Defined.

(** ** The bone solver on binary64 *)
Section SolverBinary64.
Import Binary64.

(** The solver never divides by zero, whatever its endpoints: the divisor
    of [Vector3.normalize] is the length or, when that is falsy, 1, and
    [Quaternion.normalize] divides only by a length that is not zero. *)
Lemma updateBone_divisors_nonzero (bone : Mesh spec_float) a b :
  Forall (fun d => is_zero d = false) (divisors (updateBone bone a b)).
Proof.
  rewrite updateBone_divisors. cbv zeta.
  constructor; [apply or_one_nonzero|].
  destruct (setFromUnitVectors_divisors
              (Vector3.new (lit 0) (lit 1) (lit 0))
              (value (Vector3.normalize
                        (Vector3.multiplyScalar (Vector3.subVectors b a) (lit 0.5)))))
    as [q ->].
  rewrite quaternion_normalize_divisors.
  generalize (Quaternion.length q). intros l.
  destruct (l === lit 0)%num eqn:Hl; constructor.
  - apply not_eq_zero_nonzero, Hl.
  - constructor.
Qed.

(** C4: for coincident finite endpoints the solver returns a bone of
    length [+0] with the identity orientation, placed at the common
    endpoint; its two divisions divide by 1. *)
Theorem updateBone_coincident (bone : Mesh spec_float) (a : Vector3.t spec_float) :
  finiteVector a = true ->
  let solved := updateBone bone a a in
  Vector3.y (scale (value solved)) = S754_zero false
  /\ quaternion (value solved) = Quaternion.identity
  /\ SFeqb (Vector3.x (position (value solved))) (Vector3.x a) = true
  /\ SFeqb (Vector3.y (position (value solved))) (Vector3.y a) = true
  /\ SFeqb (Vector3.z (position (value solved))) (Vector3.z a) = true
  /\ divisors solved = [lit 1; lit 1]
  /\ Forall (fun d => is_zero d = false) (divisors solved).
Proof.
  intros Hfinite solved.
  destruct a as [ax ay az]. unfold finiteVector in Hfinite.
  cbn [Vector3.x Vector3.y Vector3.z] in *.
  apply andb_true_iff in Hfinite as [Hfinite Hz].
  apply andb_true_iff in Hfinite as [Hx Hy].
  assert (Hsolved : solved
    = (set_visible true
         (set_quaternion Quaternion.identity
            (set_scale_y (S754_zero false)
               (set_position
                  (Vector3.new (SFadd prec emax ax (S754_zero false))
                               (SFadd prec emax ay (S754_zero false))
                               (SFadd prec emax az (S754_zero false)))
                  bone))),
       [lit 1; lit 1])).
  { subst solved. unfold updateBone, Vector3.subVectors.
    cbn [Vector3.x Vector3.y Vector3.z].
    change (@fsub spec_float binary64) with (SFsub prec emax).
    rewrite !SFsub_diag by assumption.
    vm_compute. reflexivity. }
  rewrite Hsolved. cbn [value divisors fst snd].
  repeat split; try reflexivity; try (apply SFadd_zero_r; assumption).
  repeat constructor.
Qed.

(** C7, as amended: the length of a bone does not depend on the order of
    its endpoints, bit for bit; its placement does not either when the
    arithmetic is exact. *)
Theorem updateBone_symmetry :
  (forall (bone : Mesh spec_float) a b,
      Vector3.y (scale (value (updateBone bone a b)))
      = Vector3.y (scale (value (updateBone bone b a))))
  /\ (forall (bone : Mesh R) a b, solverSymmetric bone a b).
Proof.
  split.
  - intros bone a b. rewrite !updateBone_value. cbn [scale Vector3.y].
    unfold Vector3.length, Vector3.subVectors. cbn [Vector3.x Vector3.y Vector3.z].
    change (@fsub spec_float binary64) with (SFsub prec emax).
    change (@fmul spec_float binary64) with (SFmul prec emax).
    rewrite (SFsub_square_sym (Vector3.x b) (Vector3.x a)).
    rewrite (SFsub_square_sym (Vector3.y b) (Vector3.y a)).
    rewrite (SFsub_square_sym (Vector3.z b) (Vector3.z a)).
    reflexivity.
  - intros bone a b. unfold solverSymmetric. rewrite !updateBone_value.
    cbn [position scale Vector3.y].
    destruct a as [ax ay az], b as [bx by' bz].
    unfold Vector3.add, Vector3.multiplyScalar, Vector3.subVectors, Vector3.length.
    cbn [Vector3.x Vector3.y Vector3.z]. rewrite lit_exact_half. to_reals.
    split; f_equal; lra.
Qed.
End SolverBinary64.

(** C4 at the point (0.1, -0.2, 0). *)
Lemma updateBone_coincident_witness :
  Vector3.y (scale (value (updateBone (createJoint 0) Endpoints.p Endpoints.p)))
  = S754_zero false.
Proof.
  apply (@updateBone_coincident (createJoint 0) Endpoints.p). vm_compute. reflexivity.
Defined.

(** C7, as stated, fails in binary64: between the abscissas 0.1 and 0.7
    the placement is 0x1.999999999999ap-2 from one end and
    0x1.9999999999999p-2 from the other. *)
Lemma placement_depends_on_order :
  Endpoints.a <> Endpoints.b
  /\ ~ solverSymmetric (createJoint 0) Endpoints.a Endpoints.b.
Proof.
  split.
  - vm_compute. discriminate.
  - unfold solverSymmetric. intros [Hplacement _].
    assert (Hx : Vector3.x (position (value (updateBone (createJoint 0)
                                               Endpoints.a Endpoints.b)))
                 = Vector3.x (position (value (updateBone (createJoint 0)
                                                 Endpoints.b Endpoints.a))))
      by (rewrite Hplacement; reflexivity).
    clear Hplacement. revert Hx. vm_compute. discriminate.
Qed.

(** ** Ingestion of non-finite coordinates *)
Section Ingestion.
Import Binary64.
Variable POSE_CONNECTIONS : list (nat * nat).

(** C6, as amended: ingestion does not look at the coordinates.  Every
    landmark that is present, finite or not, is negated into its joint,
    which is shown; and every bone whose two endpoint landmarks are
    present is solved and shown, at a non-finite placement when an
    endpoint has a non-finite coordinate. *)
Theorem onResults_propagates_non_finite (results : Results spec_float)
    landmarks (scene : Scene spec_float) :
  poseWorldLandmarks results = Some landmarks ->
  let scene' := onResults POSE_CONNECTIONS results scene in
  (forall i landmark mesh,
      landmarkAt landmarks i = Some landmark ->
      jointMeshes scene !! i = Some mesh ->
      exists mesh',
        jointMeshes scene' !! i = Some mesh'
        /\ position mesh' = toRenderSpace landmark
        /\ visible mesh' = true
        /\ finiteVector (position mesh') = finiteLandmark landmark
        /\ is_nan (Vector3.x (position mesh')) = is_nan (lx landmark))
  /\ (forall i connection a b bone,
        POSE_CONNECTIONS !! i = Some connection ->
        landmarkAt landmarks connection.1 = Some a ->
        landmarkAt landmarks connection.2 = Some b ->
        boneMeshes scene !! i = Some bone ->
        exists bone',
          boneMeshes scene' !! i = Some bone'
          /\ visible bone' = true
          /\ (finiteLandmark a && finiteLandmark b = false ->
              finiteVector (position bone') = false)).
Proof.
  intros Hdet scene'. subst scene'. split.
  - intros i landmark mesh Hlandmark Hmesh.
    rewrite (onResults_joint _ _ _ _ Hdet), Hlandmark, Hmesh.
    eexists. split; [reflexivity|]. simpl.
    repeat split; try reflexivity.
    + unfold finiteVector, finiteLandmark. simpl.
      rewrite !SFopp_is_finite. reflexivity.
    + apply SFopp_is_nan.
  - intros i connection a b bone Hconn Ha Hb Hbone.
    rewrite (onResults_bone _ _ _ _ Hdet), Hconn, Hbone.
    unfold showBone. rewrite Ha, Hb. eexists. split; [reflexivity|].
    rewrite updateBone_value. cbn [visible position]. split; [reflexivity|].
    destruct a as [ax ay az], b as [bx by' bz].
    unfold finiteLandmark, finiteVector, toRenderSpace, Vector3.add,
      Vector3.multiplyScalar, Vector3.subVectors.
    cbn [lx ly lz Vector3.x Vector3.y Vector3.z].
    change (@fneg spec_float binary64) with SFopp.
    change (@fadd spec_float binary64) with (SFadd prec emax).
    change (@fsub spec_float binary64) with (SFsub prec emax).
    change (@fmul spec_float binary64) with (SFmul prec emax).
    intros Hnon.
    destruct (is_finite ax && is_finite bx) eqn:Hx.
    + destruct (is_finite ay && is_finite by') eqn:Hy.
      * destruct (is_finite az && is_finite bz) eqn:Hz.
        -- exfalso. apply andb_true_iff in Hx as [Hax Hbx].
           apply andb_true_iff in Hy as [Hay Hby].
           apply andb_true_iff in Hz as [Haz Hbz].
           rewrite Hax, Hbx, Hay, Hby, Haz, Hbz in Hnon. discriminate Hnon.
        -- rewrite (midpoint_non_finite (SFopp az) (SFopp bz))
             by (rewrite !SFopp_is_finite; exact Hz).
           apply andb_false_r.
      * rewrite (midpoint_non_finite (SFopp ay) (SFopp by'))
          by (rewrite !SFopp_is_finite; exact Hy).
        rewrite andb_false_r. reflexivity.
    + rewrite (midpoint_non_finite (SFopp ax) (SFopp bx))
        by (rewrite !SFopp_is_finite; exact Hx).
      reflexivity.
Qed.
End Ingestion.

(** C6 at the joint of the NaN landmark. *)
Lemma onResults_propagates_non_finite_witness :
  exists mesh',
    jointMeshes (onResults MEDIAPIPE_POSE_CONNECTIONS Malformed.nanFrame Sample.start)
      !! 0%nat = Some mesh'
    /\ visible mesh' = true
    /\ Binary64.is_nan (Vector3.x (position mesh')) = true.
Proof.
  destruct (@onResults_propagates_non_finite MEDIAPIPE_POSE_CONNECTIONS
              Malformed.nanFrame _ Sample.start eq_refl) as [Hjoints _].
  destruct (Hjoints 0%nat _ _ eq_refl eq_refl)
    as (mesh' & Hmesh & _ & Hvisible & _ & Hnan).
  exists mesh'. repeat split; assumption.
Defined.

(** C6, as stated, fails: from the start scene, where every mesh is at a
    finite position, a frame whose landmark 0 has a NaN coordinate leaves
    joint 0 shown at a NaN position. *)
Lemma nan_reaches_the_scene :
  placedFinite Sample.start
  /\ ~ placedFinite (onResults MEDIAPIPE_POSE_CONNECTIONS Malformed.nanFrame
                               Sample.start).
Proof.
  split.
  - unfold placedFinite. vm_compute. repeat constructor.
  - unfold placedFinite. vm_compute. intros Hfinite.
    inversion Hfinite as [|mesh rest Hhead _]. discriminate Hhead.
Qed.

(** ** The bone solver, endpoint to endpoint *)
Section Solver.
Local Open Scope R_scope.

End Solver.


(** ** Further properties of the scene update *)
Section Shape.
Context {F : Type} `{Number F}.
Variable POSE_CONNECTIONS : list (nat * nat).

Lemma createBones_lookup i (bone : Mesh F) :
  createBones POSE_CONNECTIONS !! i = Some bone -> bone = boneCylinder.
Proof.
  unfold createBones. change (map ?f ?l) with (f <$> l).
  rewrite list_lookup_fmap.
  destruct (POSE_CONNECTIONS !! i); [|discriminate]. simpl. intros [= <-]. reflexivity.
Qed.

Lemma scene_eq (s1 s2 : Scene F) :
  jointMeshes s1 = jointMeshes s2 -> boneMeshes s1 = boneMeshes s2 -> s1 = s2.
Proof. destruct s1, s2. simpl. intros -> ->. reflexivity. Qed.

Lemma mesh_eq (m1 m2 : Mesh F) :
  geometry m1 = geometry m2 -> material m1 = material m2 ->
  position m1 = position m2 -> scale m1 = scale m2 ->
  quaternion m1 = quaternion m2 -> visible m1 = visible m2 -> m1 = m2.
Proof. destruct m1, m2. simpl. intros -> -> -> -> -> ->. reflexivity. Qed.

(** What an update leaves alone in a bone: geometry, material and the
    scale across the axis. *)
Lemma showBone_keeps landmarks connection (bone : Mesh F) :
  geometry (showBone landmarks connection bone) = geometry bone
  /\ material (showBone landmarks connection bone) = material bone
  /\ Vector3.x (scale (showBone landmarks connection bone)) = Vector3.x (scale bone)
  /\ Vector3.z (scale (showBone landmarks connection bone)) = Vector3.z (scale bone).
Proof.
  unfold showBone.
  destruct (landmarkAt landmarks connection.1); [|done].
  destruct (landmarkAt landmarks connection.2); [|done].
  rewrite updateBone_value. done.
Qed.

Lemma onResults_bone_keeps results (scene : Scene F) i bone' :
  boneMeshes (onResults POSE_CONNECTIONS results scene) !! i = Some bone' ->
  exists bone, boneMeshes scene !! i = Some bone
    /\ geometry bone' = geometry bone /\ material bone' = material bone
    /\ Vector3.x (scale bone') = Vector3.x (scale bone)
    /\ Vector3.z (scale bone') = Vector3.z (scale bone).
Proof.
  destruct (poseWorldLandmarks results) as [landmarks|] eqn:Hdet.
  - rewrite (onResults_bone _ _ _ _ Hdet).
    destruct (POSE_CONNECTIONS !! i) as [connection|].
    + destruct (boneMeshes scene !! i) as [bone|]; [|discriminate].
      simpl. intros [= <-]. exists bone. split; [reflexivity|].
      apply showBone_keeps.
    + intros Hbone. exists bone'. done.
  - rewrite (onResults_no_detection _ _ _ Hdet). simpl.
    rewrite list_lookup_fmap.
    destruct (boneMeshes scene !! i) as [bone|]; [|discriminate].
    simpl. intros [= <-]. exists bone. done.
Qed.

Lemma onResults_joint_keeps results (scene : Scene F) i mesh' :
  jointMeshes (onResults POSE_CONNECTIONS results scene) !! i = Some mesh' ->
  exists mesh, jointMeshes scene !! i = Some mesh
    /\ scale mesh' = scale mesh /\ quaternion mesh' = quaternion mesh.
Proof.
  destruct (poseWorldLandmarks results) as [landmarks|] eqn:Hdet.
  - rewrite (onResults_joint _ _ _ _ Hdet).
    destruct (jointMeshes scene !! i) as [mesh|]; [|discriminate].
    simpl. intros [= <-]. exists mesh. split; [reflexivity|].
    destruct (landmarkAt landmarks i); done.
  - rewrite (onResults_no_detection _ _ _ Hdet). simpl.
    rewrite list_lookup_fmap.
    destruct (jointMeshes scene !! i) as [mesh|]; [|discriminate].
    simpl. intros [= <-]. exists mesh. done.
Qed.

(** The meshes of a reachable scene: what no update writes. *)
Lemma reachable_meshes (scene : Scene F) :
  reachable POSE_CONNECTIONS scene ->
  (forall i mesh, jointMeshes scene !! i = Some mesh ->
      scale mesh = Vector3.new (lit 1) (lit 1) (lit 1)
      /\ quaternion mesh = Quaternion.identity)
  /\ (forall i bone, boneMeshes scene !! i = Some bone ->
        geometry bone = geometry boneCylinder
        /\ material bone = material boneCylinder
        /\ Vector3.x (scale bone) = lit 1
        /\ Vector3.z (scale bone) = lit 1).
Proof.
  induction 1 as [|results scene Hreach [IHj IHb]].
  - split.
    + intros i mesh Hmesh. simpl in Hmesh.
      assert (Hi : (i < 33)%nat).
      { apply lookup_lt_Some in Hmesh. rewrite createJoints_length in Hmesh.
        exact Hmesh. }
      rewrite createJoints_lookup in Hmesh by exact Hi.
      injection Hmesh as <-. done.
    + intros i bone Hbone. simpl in Hbone.
      apply createBones_lookup in Hbone. subst bone. done.
  - split.
    + intros i mesh Hmesh.
      destruct (onResults_joint_keeps _ _ _ Hmesh) as (old & Hold & -> & ->).
      apply (IHj i old Hold).
    + intros i bone Hbone.
      destruct (onResults_bone_keeps _ _ _ Hbone) as (old & Hold & -> & -> & -> & ->).
      apply (IHb i old Hold).
Qed.

(** X2: whatever the detector sends, the scene keeps its shape: 33 joints
    and one bone per connection; a joint is never scaled or rotated and
    keeps its sphere and material; a bone keeps its cylinder, its material
    and its scale across the axis. *)
Theorem reachable_shape (scene : Scene F) :
  reachable POSE_CONNECTIONS scene ->
  length (jointMeshes scene) = 33%nat
  /\ length (boneMeshes scene) = length POSE_CONNECTIONS
  /\ (forall i mesh, jointMeshes scene !! i = Some mesh ->
        geometry mesh = geometry (createJoint (Z.of_nat i))
        /\ material mesh = material (createJoint (Z.of_nat i))
        /\ scale mesh = Vector3.new (lit 1) (lit 1) (lit 1)
        /\ quaternion mesh = Quaternion.identity)
  /\ (forall i bone, boneMeshes scene !! i = Some bone ->
        geometry bone = geometry boneCylinder
        /\ material bone = material boneCylinder
        /\ Vector3.x (scale bone) = lit 1
        /\ Vector3.z (scale bone) = lit 1).
Proof.
  intros Hreach.
  destruct (reachable_invariant Hreach) as (Hjoints & Hbones & Hclass).
  destruct (reachable_meshes Hreach) as [Hj Hb].
  split; [exact Hjoints|]. split; [exact Hbones|]. split.
  - intros i mesh Hmesh.
    destruct (Hclass i mesh Hmesh) as [Hg Hm], (Hj i mesh Hmesh) as [Hs Hq]. done.
  - exact Hb.
Qed.

(** X1: what a frame with landmarks does to a joint that has a mesh.  If
    its landmark is present the joint is shown at the negated landmark; if
    its landmark is absent the mesh is left as it was, position and
    visibility included.  Either way a joint that was visible stays
    visible, and scale and orientation are not written. *)
Theorem onResults_joint_update (results : Results F) landmarks
    (scene : Scene F) i mesh :
  poseWorldLandmarks results = Some landmarks ->
  jointMeshes scene !! i = Some mesh ->
  exists mesh',
    jointMeshes (onResults POSE_CONNECTIONS results scene) !! i = Some mesh'
    /\ match landmarkAt landmarks i with
       | Some landmark =>
           position mesh' = toRenderSpace landmark /\ visible mesh' = true
       | None => mesh' = mesh
       end
    /\ (visible mesh = true -> visible mesh' = true)
    /\ scale mesh' = scale mesh
    /\ quaternion mesh' = quaternion mesh.
Proof.
  intros Hdet Hmesh. rewrite (onResults_joint _ _ _ _ Hdet), Hmesh.
  eexists. split; [reflexivity|].
  destruct (landmarkAt landmarks i) as [landmark|]; simpl; done.
Qed.

(** X3: handling the same result twice is handling it once. *)
Theorem onResults_idempotent (results : Results F) (scene : Scene F) :
  onResults POSE_CONNECTIONS results (onResults POSE_CONNECTIONS results scene)
  = onResults POSE_CONNECTIONS results scene.
Proof.
  destruct (poseWorldLandmarks results) as [landmarks|] eqn:Hdet.
  - apply scene_eq; apply list_eq; intros i.
    + rewrite (onResults_joint _ _ _ _ Hdet).
      rewrite (onResults_joint _ _ scene _ Hdet).
      destruct (jointMeshes scene !! i) as [mesh|]; [|reflexivity]. simpl. f_equal.
      destruct (landmarkAt landmarks i); reflexivity.
    + rewrite (onResults_bone _ _ _ _ Hdet).
      rewrite (onResults_bone _ _ scene _ Hdet).
      destruct (POSE_CONNECTIONS !! i) as [connection|]; [|reflexivity].
      destruct (boneMeshes scene !! i) as [bone|]; [|reflexivity]. simpl. f_equal.
      unfold showBone.
      destruct (landmarkAt landmarks connection.1); [|reflexivity].
      destruct (landmarkAt landmarks connection.2); [|reflexivity].
      rewrite !updateBone_value. reflexivity.
  - rewrite !(onResults_no_detection _ _ _ Hdet). simpl.
    apply scene_eq; simpl; rewrite <- list_fmap_compose; apply list_fmap_ext;
      intros j mesh _; reflexivity.
Qed.

(** X8: an empty landmark array is not "no detection": the scene is left
    exactly as it was, nothing is hidden. *)
Theorem onResults_empty_frame (scene : Scene F) :
  onResults POSE_CONNECTIONS {| poseWorldLandmarks := Some [] |} scene = scene.
Proof.
  set (results := {| poseWorldLandmarks := Some [] |}).
  assert (Hdet : poseWorldLandmarks results = Some []) by reflexivity.
  apply scene_eq; apply list_eq; intros i.
  - rewrite (onResults_joint _ _ _ _ Hdet).
    destruct (jointMeshes scene !! i); reflexivity.
  - rewrite (onResults_bone _ _ _ _ Hdet).
    destruct (POSE_CONNECTIONS !! i) as [connection|]; [|reflexivity].
    destruct (boneMeshes scene !! i); reflexivity.
Qed.

(** X10: a bone that is solved joins the two joints as they are displayed:
    its placement and its length are computed from the positions the same
    update gives to its endpoint joints. *)
Theorem bone_joins_its_joints (results : Results F) landmarks (scene : Scene F)
    i connection a b bone jointA jointB :
  poseWorldLandmarks results = Some landmarks ->
  POSE_CONNECTIONS !! i = Some connection ->
  landmarkAt landmarks connection.1 = Some a ->
  landmarkAt landmarks connection.2 = Some b ->
  boneMeshes scene !! i = Some bone ->
  jointMeshes scene !! connection.1 = Some jointA ->
  jointMeshes scene !! connection.2 = Some jointB ->
  let scene' := onResults POSE_CONNECTIONS results scene in
  exists bone' jointA' jointB',
    boneMeshes scene' !! i = Some bone'
    /\ jointMeshes scene' !! connection.1 = Some jointA'
    /\ jointMeshes scene' !! connection.2 = Some jointB'
    /\ visible bone' = true /\ visible jointA' = true /\ visible jointB' = true
    /\ position bone'
       = Vector3.add (position jointA')
           (Vector3.multiplyScalar
              (Vector3.subVectors (position jointB') (position jointA')) (lit 0.5))
    /\ Vector3.y (scale bone')
       = Vector3.length (Vector3.subVectors (position jointB') (position jointA')).
Proof.
  intros Hdet Hconn Ha Hb Hbone HjA HjB scene'. subst scene'.
  rewrite (onResults_bone _ _ _ _ Hdet), Hconn, Hbone.
  rewrite !(onResults_joint _ _ _ _ Hdet), Ha, Hb, HjA, HjB.
  do 3 eexists. do 3 (split; [reflexivity|]).
  unfold showBone. rewrite Ha, Hb, updateBone_value. simpl. done.
Qed.

(** The landmarks of a complete frame. *)
Lemma complete_joint landmarks i :
  complete (F := F) POSE_CONNECTIONS landmarks = true ->
  (i < 33)%nat -> is_Some (landmarkAt landmarks i).
Proof.
  unfold complete. intros Hc Hi. apply andb_true_iff in Hc as [Hj _].
  rewrite forallb_forall in Hj.
  specialize (Hj i). rewrite bool_decide_eq_true in Hj. apply Hj.
  apply in_seq. lia.
Qed.

Lemma complete_bone landmarks i connection :
  complete (F := F) POSE_CONNECTIONS landmarks = true ->
  POSE_CONNECTIONS !! i = Some connection ->
  is_Some (landmarkAt landmarks connection.1)
  /\ is_Some (landmarkAt landmarks connection.2).
Proof.
  unfold complete. intros Hc Hconn. apply andb_true_iff in Hc as [_ Hb].
  rewrite forallb_forall in Hb.
  assert (Hin : In connection POSE_CONNECTIONS).
  { apply list_elem_of_In, list_elem_of_lookup. exists i. exact Hconn. }
  specialize (Hb connection Hin). unfold endpointsPresent in Hb.
  apply andb_true_iff in Hb as [H1 H2].
  rewrite bool_decide_eq_true in H1. rewrite bool_decide_eq_true in H2. done.
Qed.

(** X13: after a complete frame every joint and every bone is shown. *)
Theorem complete_frame_shows_all (results : Results F) landmarks (scene : Scene F) :
  reachable POSE_CONNECTIONS scene ->
  poseWorldLandmarks results = Some landmarks ->
  complete POSE_CONNECTIONS landmarks = true ->
  let scene' := onResults POSE_CONNECTIONS results scene in
  Forall (fun mesh => visible mesh = true) (jointMeshes scene')
  /\ Forall (fun mesh => visible mesh = true) (boneMeshes scene').
Proof.
  intros Hreach Hdet Hcomplete scene'. subst scene'.
  destruct (reachable_invariant Hreach) as (Hjoints & Hbones & _).
  split; apply Forall_lookup; intros i mesh'.
  - rewrite (onResults_joint _ _ _ _ Hdet).
    destruct (jointMeshes scene !! i) as [mesh|] eqn:Hmesh; [|discriminate].
    assert (Hi : (i < 33)%nat).
    { apply lookup_lt_Some in Hmesh. lia. }
    destruct (complete_joint _ Hcomplete Hi) as [landmark ->].
    simpl. intros [= <-]. reflexivity.
  - rewrite (onResults_bone _ _ _ _ Hdet).
    destruct (boneMeshes scene !! i) as [bone|] eqn:Hbone.
    2: { destruct (POSE_CONNECTIONS !! i); discriminate. }
    destruct (lookup_lt_is_Some_2 POSE_CONNECTIONS i) as [connection Hconn].
    { apply lookup_lt_Some in Hbone. lia. }
    rewrite Hconn. simpl. intros [= <-].
    destruct (complete_bone _ _ Hcomplete Hconn) as [[a Ha] [b Hb]].
    unfold showBone. rewrite Ha, Hb, updateBone_value. reflexivity.
Qed.

(** X4: a complete frame overwrites everything an earlier frame wrote: the
    scene after it is the same from any two reachable scenes. *)
Theorem complete_frame_forgets_history (results : Results F) landmarks
    (scene1 scene2 : Scene F) :
  reachable POSE_CONNECTIONS scene1 ->
  reachable POSE_CONNECTIONS scene2 ->
  poseWorldLandmarks results = Some landmarks ->
  complete POSE_CONNECTIONS landmarks = true ->
  onResults POSE_CONNECTIONS results scene1
  = onResults POSE_CONNECTIONS results scene2.
Proof.
  intros Hreach1 Hreach2 Hdet Hcomplete.
  destruct (reachable_invariant Hreach1) as (Hjoints1 & Hbones1 & Hclass1).
  destruct (reachable_invariant Hreach2) as (Hjoints2 & Hbones2 & Hclass2).
  destruct (reachable_meshes Hreach1) as [Hj1 Hb1].
  destruct (reachable_meshes Hreach2) as [Hj2 Hb2].
  apply scene_eq; apply list_eq; intros i.
  - rewrite !(onResults_joint _ _ _ _ Hdet).
    destruct (decide (i < 33)%nat) as [Hi|Hi].
    + destruct (lookup_lt_is_Some_2 (jointMeshes scene1) i) as [m1 Hm1]; [lia|].
      destruct (lookup_lt_is_Some_2 (jointMeshes scene2) i) as [m2 Hm2]; [lia|].
      destruct (complete_joint _ Hcomplete Hi) as [landmark ->].
      rewrite Hm1, Hm2. simpl. f_equal.
      destruct (Hclass1 i m1 Hm1) as [Hg1 Hmat1], (Hclass2 i m2 Hm2) as [Hg2 Hmat2].
      destruct (Hj1 i m1 Hm1) as [Hs1 Hq1], (Hj2 i m2 Hm2) as [Hs2 Hq2].
      apply mesh_eq; simpl; congruence.
    + rewrite !lookup_ge_None_2 by lia. reflexivity.
  - rewrite !(onResults_bone _ _ _ _ Hdet).
    destruct (POSE_CONNECTIONS !! i) as [connection|] eqn:Hconn.
    + pose proof (lookup_lt_Some _ _ _ Hconn) as Hi.
      destruct (lookup_lt_is_Some_2 (boneMeshes scene1) i) as [b1 Hbone1]; [lia|].
      destruct (lookup_lt_is_Some_2 (boneMeshes scene2) i) as [b2 Hbone2]; [lia|].
      rewrite Hbone1, Hbone2. simpl. f_equal.
      destruct (complete_bone _ _ Hcomplete Hconn) as [[a Ha] [b Hb]].
      unfold showBone. rewrite Ha, Hb, !updateBone_value.
      destruct (Hb1 i b1 Hbone1) as (Hg1 & Hm1 & Hx1 & Hz1).
      destruct (Hb2 i b2 Hbone2) as (Hg2 & Hm2 & Hx2 & Hz2).
      apply mesh_eq; simpl; congruence.
    + pose proof (lookup_ge_None_1 _ _ Hconn) as Hi.
      rewrite !lookup_ge_None_2 by lia. reflexivity.
Qed.

(** X12: nothing is shown before the first result that carries landmarks:
    from startup, after any number of results without landmarks, every
    mesh is hidden. *)
Theorem hidden_until_landmarks (results : list (Results F)) :
  Forall (fun r => poseWorldLandmarks r = None) results ->
  let scene := run POSE_CONNECTIONS results (initialScene POSE_CONNECTIONS) in
  Forall (fun mesh => visible mesh = false) (jointMeshes scene)
  /\ Forall (fun mesh => visible mesh = false) (boneMeshes scene).
Proof.
  intros Hnone. simpl.
  assert (Hstart :
    Forall (fun mesh : Mesh F => visible mesh = false)
           (jointMeshes (initialScene POSE_CONNECTIONS))
    /\ Forall (fun mesh : Mesh F => visible mesh = false)
              (boneMeshes (initialScene POSE_CONNECTIONS))).
  { simpl. unfold createJoints, createBones.
    split; change (map ?f ?l) with (f <$> l); apply Forall_fmap, Forall_true;
      reflexivity. }
  revert Hstart. generalize (initialScene (F := F) POSE_CONNECTIONS).
  induction Hnone as [|r rest Hr Hrest IH]; intros scene Hscene.
  - exact Hscene.
  - simpl. apply IH. rewrite (onResults_no_detection _ _ _ Hr). simpl.
    split; apply Forall_fmap, Forall_true; reflexivity.
Qed.
End Shape.

(** ** Further properties of the bone solver *)
Section SolverFacts.
Import Binary64.

Local Abbreviation sub := (SFsub prec emax).
Local Abbreviation mul := (SFmul prec emax).
Local Abbreviation add := (SFadd prec emax).

Lemma binary_round_aux_not_negative m e l :
  isNegative (binary_round_aux prec emax false m e l) = false.
Proof.
  unfold binary_round_aux.
  destruct (shr_fexp prec emax m e l) as [mrs e'].
  destruct (shr_fexp prec emax _ e' loc_Exact) as [mrs2 e2].
  destruct (shr_m mrs2) as [|q|q]; try reflexivity.
  destruct (e2 <=? emax - prec)%Z; reflexivity.
Qed.

Lemma SFmul_self_not_negative (a : spec_float) : isNegative (mul a a) = false.
Proof.
  destruct a as [s|s| |s m e]; try (destruct s; reflexivity); try reflexivity.
  unfold SFmul. replace (xorb s s) with false by (destruct s; reflexivity).
  apply binary_round_aux_not_negative.
Qed.

Lemma SFadd_not_negative (a b : spec_float) :
  isNegative a = false -> isNegative b = false -> isNegative (add a b) = false.
Proof.
  destruct a as [sa|sa| |sa ma ea], b as [sb|sb| |sb mb eb]; simpl;
    intros Ha Hb; subst; try reflexivity.
  unfold SFadd, cond_Zopp.
  set (A := (shl_align ma ea (Z.min ea eb)).1).
  set (B := (shl_align mb eb (Z.min ea eb)).1).
  change (Z.pos A + Z.pos B)%Z with (Z.pos (A + B)).
  unfold binary_normalize, binary_round.
  destruct (shl_align (A + B) _ _) as [mz ez]. apply binary_round_aux_not_negative.
Qed.

Lemma SFsqrt_not_negative (a : spec_float) :
  isNegative a = false -> isNegative (SFsqrt prec emax a) = false.
Proof.
  destruct a as [s|s| |s m e]; simpl; intros Ha; subst; try reflexivity.
  destruct (SFsqrt_core_binary prec emax (Z.pos m) e) as [[mz ez] lz].
  apply binary_round_aux_not_negative.
Qed.

(** X6: the length the solver gives a bone never has its sign set: it is
    [+0], positive, [+infinity] or NaN, whatever the endpoints. *)
Theorem bone_length_not_negative (bone : Mesh spec_float) a b :
  isNegative (Vector3.y (scale (value (updateBone bone a b)))) = false.
Proof.
  rewrite updateBone_value. cbn [scale Vector3.y]. unfold Vector3.length.
  change (@fsqrt spec_float binary64) with (SFsqrt prec emax).
  change (@fadd spec_float binary64) with (SFadd prec emax).
  change (@fmul spec_float binary64) with (SFmul prec emax).
  apply SFsqrt_not_negative.
  repeat apply SFadd_not_negative; apply SFmul_self_not_negative.
Qed.

Lemma cond_Zopp_negb s m : cond_Zopp (negb s) m = (- cond_Zopp s m)%Z.
Proof. destruct s; simpl; lia. Qed.

(** Negating both operands does not change the square of a difference. *)
Lemma SFsub_opp_square (a b : spec_float) :
  mul (sub (SFopp b) (SFopp a)) (sub (SFopp b) (SFopp a)) = mul (sub b a) (sub b a).
Proof.
  destruct a as [sa|sa| |sa ma ea], b as [sb|sb| |sb mb eb];
    try reflexivity;
    try (destruct sa, sb; reflexivity);
    try (destruct sa; reflexivity);
    try (destruct sb; reflexivity).
  unfold SFopp, SFsub. rewrite !cond_Zopp_negb.
  set (ez := Z.min eb ea).
  set (A := cond_Zopp sa (Z.pos (shl_align ma ea ez).1)).
  set (B := cond_Zopp sb (Z.pos (shl_align mb eb ez).1)).
  replace (- B - - A)%Z with (- (B - A))%Z by lia.
  rewrite binary_normalize_opp.
  destruct (B - A)%Z; [reflexivity| |]; apply SFmul_opp_opp.
Qed.

(** X9: mirroring does not change lengths: the length the solver gives to
    the bone between two landmarks is, bit for bit, the distance between
    the landmarks as the detector sent them. *)
Theorem bone_length_is_landmark_distance (bone : Mesh spec_float)
    (a b : Landmark spec_float) :
  Vector3.y (scale (value (updateBone bone (toRenderSpace a) (toRenderSpace b))))
  = Vector3.length (Vector3.subVectors (asVector b) (asVector a)).
Proof.
  rewrite updateBone_value. cbn [scale Vector3.y].
  unfold Vector3.length, Vector3.subVectors, toRenderSpace, asVector.
  cbn [Vector3.x Vector3.y Vector3.z].
  change (@fsub spec_float binary64) with (SFsub prec emax).
  change (@fmul spec_float binary64) with (SFmul prec emax).
  change (@fneg spec_float binary64) with SFopp.
  rewrite !SFsub_opp_square. reflexivity.
Qed.

(** X11: radius and colour always go together, for every integer index,
    in or out of range: 0.02 with yellow exactly on 0-10 and 17-22, 0.05
    with green everywhere else. *)
Theorem radius_and_colour_agree (index : Z) :
  (getScaleForLandmark (F := spec_float) index = lit 0.02 <-> fine index)
  /\ (getColorForLandmark index = 0xffff00%Z <-> fine index)
  /\ (getScaleForLandmark (F := spec_float) index = lit 0.05 <-> ~ fine index)
  /\ (getColorForLandmark index = 0x00ff00%Z <-> ~ fine index).
Proof.
  pose proof (landmark_class (F := spec_float) index) as Hclass.
  assert (Hradii : lit (F := spec_float) 0.02 <> lit 0.05)
    by (vm_compute; discriminate).
  assert (Hcolours : 0xffff00%Z <> 0x00ff00%Z) by discriminate.
  revert Hclass Hradii Hcolours.
  generalize (lit (F := spec_float) 0.02) (lit (F := spec_float) 0.05)
    0xffff00%Z 0x00ff00%Z.
  intros fineRadius standardRadius yellow green Hclass Hradii Hcolours.
  destruct (decide (fine index)) as [Hfine|Hstd]; destruct Hclass as [Hs Hc];
    rewrite Hs, Hc; intuition congruence.
Qed.
End SolverFacts.

Section SolverExactFacts.
Local Open Scope R_scope.


End SolverExactFacts.

(** ** Bones and their joints *)
Section Dangling.
Context {F : Type} `{Number F}.
Variable POSE_CONNECTIONS : list (nat * nat).

Lemma showJoint_stays_visible slot (mesh : Mesh F) :
  visible mesh = true -> visible (showJoint slot mesh) = true.
Proof. destruct slot; simpl; done. Qed.

(** X14: a shown bone never dangles.  In every reachable scene the joints
    at the two ends of a visible bone are visible too (the converse does
    not hold: two joints shown by different frames have no bone). *)
Theorem shown_bone_has_shown_joints (scene : Scene F) :
  reachable POSE_CONNECTIONS scene ->
  forall i connection bone,
    POSE_CONNECTIONS !! i = Some connection ->
    boneMeshes scene !! i = Some bone ->
    visible bone = true ->
    (forall joint, jointMeshes scene !! connection.1 = Some joint ->
                   visible joint = true)
    /\ (forall joint, jointMeshes scene !! connection.2 = Some joint ->
                      visible joint = true).
Proof.
  induction 1 as [|results scene Hreach IH];
    intros i connection bone' Hconn Hbone Hshown.
  - simpl in Hbone. apply createBones_lookup in Hbone. subst bone'.
    discriminate Hshown.
  - destruct (poseWorldLandmarks results) as [landmarks|] eqn:Hdet.
    + rewrite (onResults_bone _ _ _ _ Hdet), Hconn in Hbone.
      destruct (boneMeshes scene !! i) as [bone|] eqn:Hold; [|discriminate].
      simpl in Hbone. injection Hbone as <-.
      assert (Hcases :
        (is_Some (landmarkAt landmarks connection.1)
         /\ is_Some (landmarkAt landmarks connection.2))
        \/ visible bone = true).
      { unfold showBone in Hshown.
        destruct (landmarkAt landmarks connection.1) as [a|]; [|right; exact Hshown].
        destruct (landmarkAt landmarks connection.2) as [b|]; [|right; exact Hshown].
        left. split; eexists; reflexivity. }
      split; intros joint'; rewrite (onResults_joint _ _ _ _ Hdet);
        (destruct (jointMeshes scene !! _) as [joint|] eqn:Hjoint; [|discriminate]);
        simpl; intros [= <-].
      * destruct Hcases as [[[a ->] _]|Hbefore]; [reflexivity|].
        apply showJoint_stays_visible.
        apply (proj1 (IH i connection bone Hconn Hold Hbefore) joint Hjoint).
      * destruct Hcases as [[_ [b ->]]|Hbefore]; [reflexivity|].
        apply showJoint_stays_visible.
        apply (proj2 (IH i connection bone Hconn Hold Hbefore) joint Hjoint).
    + rewrite (onResults_no_detection _ _ _ Hdet) in Hbone. simpl in Hbone.
      rewrite list_lookup_fmap in Hbone.
      destruct (boneMeshes scene !! i); [|discriminate].
      simpl in Hbone. injection Hbone as <-. discriminate Hshown.
Qed.
End Dangling.

Section Divisions.
Import Binary64.

(** X5: the solver never divides by zero, whatever its endpoints (NaN and
    infinities included).  It divides at most twice; the divisor of
    [Vector3.normalize] is the length or, when the length is zero or NaN,
    1, so it is neither zero nor NaN; [Quaternion.normalize] divides only
    by a length that is not zero. *)
Theorem solver_never_divides_by_zero (bone : Mesh spec_float) a b :
  (length (divisors (updateBone bone a b)) <= 2)%nat
  /\ Forall (fun d => is_zero d = false) (divisors (updateBone bone a b))
  /\ (exists d, head (divisors (updateBone bone a b)) = Some d
                /\ is_zero d = false /\ is_nan d = false).
Proof.
  rewrite updateBone_divisors. cbv zeta.
  destruct (setFromUnitVectors_divisors
              (Vector3.new (lit 0) (lit 1) (lit 0))
              (value (Vector3.normalize
                        (Vector3.multiplyScalar (Vector3.subVectors b a) (lit 0.5)))))
    as [q ->].
  rewrite quaternion_normalize_divisors.
  generalize (Quaternion.length q). intros l.
  generalize (Vector3.length
                (Vector3.multiplyScalar (Vector3.subVectors b a) (lit 0.5))).
  intros len.
  assert (Hfirst : is_zero (len || lit 1)%num = false /\ is_nan (len || lit 1)%num = false).
  { destruct len; split; reflexivity. }
  destruct Hfirst as [Hzero Hnan].
  split; [|split].
  - destruct (l === lit 0)%num; simpl; lia.
  - constructor; [exact Hzero|].
    destruct (l === lit 0)%num eqn:Hl; constructor.
    + apply not_eq_zero_nonzero, Hl.
    + constructor.
  - eexists. split; [reflexivity|]. split; assumption.
Qed.
End Divisions.

(** ** The further properties on the sample frames *)

(** X1 at joint 5 of the start scene, for the frame that has landmark 0 only. *)
Lemma onResults_joint_update_witness :
  exists mesh',
    jointMeshes (onResults MEDIAPIPE_POSE_CONNECTIONS Sample.partialFrame
                           Sample.start) !! 5%nat = Some mesh'
    /\ mesh' = createJoint 5.
Proof.
  destruct (@onResults_joint_update spec_float binary64 MEDIAPIPE_POSE_CONNECTIONS
              Sample.partialFrame [Some (Sample.landmark 0 0 0)] Sample.start
              5%nat (createJoint 5) eq_refl eq_refl)
    as (mesh' & Hlookup & Hsame & _).
  exists mesh'. split; [exact Hlookup | exact Hsame].
Defined.

(** X2 at the scene after a full frame. *)
Lemma reachable_shape_witness :
  length (jointMeshes Sample.tracked) = 33%nat
  /\ length (boneMeshes Sample.tracked) = 35%nat.
Proof.
  destruct (@reachable_shape spec_float binary64 MEDIAPIPE_POSE_CONNECTIONS
              Sample.tracked (reachable_onResults _ (reachable_init _)))
    as (Hjoints & Hbones & _).
  split; [exact Hjoints | exact Hbones].
Defined.

(** X10 at the bone between landmarks 0 and 1 of the full frame. *)
Lemma bone_joins_its_joints_witness :
  exists bone' jointA' jointB',
    boneMeshes Sample.tracked !! 0%nat = Some bone'
    /\ jointMeshes Sample.tracked !! 0%nat = Some jointA'
    /\ jointMeshes Sample.tracked !! 1%nat = Some jointB'
    /\ position bone'
       = Vector3.add (position jointA')
           (Vector3.multiplyScalar
              (Vector3.subVectors (position jointB') (position jointA')) (lit 0.5)).
Proof.
  destruct (@bone_joins_its_joints spec_float binary64 MEDIAPIPE_POSE_CONNECTIONS
              Sample.fullFrame Sample.fullLandmarks Sample.start 0%nat (0, 1)%nat
              _ _ _ _ _ eq_refl eq_refl eq_refl eq_refl eq_refl eq_refl eq_refl)
    as (bone' & jointA' & jointB' & Hbone & HjA & HjB & _ & _ & _ & Hposition & _).
  exists bone', jointA', jointB'. repeat split; assumption.
Defined.

(** X13 for the full frame, from the start scene. *)
Lemma complete_frame_shows_all_witness :
  Forall (fun mesh => visible mesh = true) (jointMeshes Sample.tracked)
  /\ Forall (fun mesh => visible mesh = true) (boneMeshes Sample.tracked).
Proof.
  apply (@complete_frame_shows_all spec_float binary64 MEDIAPIPE_POSE_CONNECTIONS
           Sample.fullFrame Sample.fullLandmarks Sample.start).
  - apply reachable_init.
  - reflexivity.
  - vm_compute. reflexivity.
Defined.

(** X4 for the full frame, from the start scene and from the scene in
    which the pose was tracked and then lost. *)
Lemma complete_frame_forgets_history_witness :
  onResults MEDIAPIPE_POSE_CONNECTIONS Sample.fullFrame Sample.start
  = onResults MEDIAPIPE_POSE_CONNECTIONS Sample.fullFrame Sample.lost.
Proof.
  apply (@complete_frame_forgets_history spec_float binary64
           MEDIAPIPE_POSE_CONNECTIONS Sample.fullFrame Sample.fullLandmarks).
  - apply reachable_init.
  - apply reachable_onResults, reachable_onResults, reachable_init.
  - reflexivity.
  - vm_compute. reflexivity.
Defined.

(** X12 after two results without landmarks. *)
Lemma hidden_until_landmarks_witness :
  Forall (fun mesh => visible mesh = false)
         (jointMeshes (run MEDIAPIPE_POSE_CONNECTIONS
                           [Sample.noDetection; Sample.noDetection] Sample.start))
  /\ Forall (fun mesh => visible mesh = false)
            (boneMeshes (run MEDIAPIPE_POSE_CONNECTIONS
                             [Sample.noDetection; Sample.noDetection] Sample.start)).
Proof.
  apply (@hidden_until_landmarks spec_float binary64 MEDIAPIPE_POSE_CONNECTIONS
           [Sample.noDetection; Sample.noDetection]).
  repeat constructor.
Defined.

(** X14 at the bone between landmarks 0 and 1 after a full frame. *)
Lemma shown_bone_has_shown_joints_witness :
  exists bone joint,
    boneMeshes Sample.tracked !! 0%nat = Some bone
    /\ jointMeshes Sample.tracked !! 0%nat = Some joint
    /\ visible joint = true.
Proof.
  assert (Hbone : exists bone, boneMeshes Sample.tracked !! 0%nat = Some bone
                               /\ visible bone = true).
  { vm_compute. eexists. split; reflexivity. }
  assert (Hjoint : exists joint, jointMeshes Sample.tracked !! 0%nat = Some joint).
  { vm_compute. eexists. reflexivity. }
  destruct Hbone as (bone & Hbone & Hshown). destruct Hjoint as (joint & Hjoint).
  exists bone, joint. split; [exact Hbone|]. split; [exact Hjoint|].
  apply (proj1 (@shown_bone_has_shown_joints spec_float binary64
                  MEDIAPIPE_POSE_CONNECTIONS Sample.tracked
                  (reachable_onResults _ (reachable_init _))
                  0%nat (0, 1)%nat bone eq_refl Hbone Hshown) joint Hjoint).
Defined.
